(** * collate: aggregate expansion and query assembly

    A shallow embedding of [src/collate/collate.py].  Python strings are
    [string]; Python lists are [list]; a Python [dict] with string keys is an
    insertion-ordered association list; SQLAlchemy clause objects are small
    records and inductive types holding exactly what the module puts in them;
    an exception is a value of [result]; the methods of
    [SpacetimeAggregation] run in a state-and-error monad over [self]. *)

From Stdlib Require Import String Ascii List Arith Bool Lia.
Import ListNotations.
Open Scope string_scope.

Set Implicit Arguments.

(** ** Python values and built-ins *)

Module Py.

Inductive exn : Type :=
| ValueError (msg : string)
| TypeError (msg : string)
| AttributeError (msg : string)
| KeyError (key : string).

Inductive result (A : Type) : Type :=
| Ok (a : A)
| Raise (e : exn).
Arguments Ok {A} a.
Arguments Raise {A} e.

(** An argument that is either one string or a collection of strings. *)
Inductive arg : Type :=
| Scalar (s : string)
| PyList (l : list string)
| PyTuple (l : list string).

(** [s.replace(old, new)] for a one-character [old]. *)
Fixpoint replace (old : ascii) (new : string) (s : string) : string :=
  match s with
  | EmptyString => EmptyString
  | String c s' =>
      if Ascii.eqb c old then new ++ replace old new s'
      else String c (replace old new s')
  end.

(** [c in s] for a one-character [c]. *)
Fixpoint contains (c : ascii) (s : string) : bool :=
  match s with
  | EmptyString => false
  | String c' s' => Ascii.eqb c' c || contains c s'
  end.

(** [str.join(sep, l)] *)
Fixpoint join (sep : string) (l : list string) : string :=
  match l with
  | [] => ""
  | [x] => x
  | x :: l' => x ++ sep ++ join sep l'
  end.

(** [itertools.product(xs, ys)]: the rightmost iterable advances fastest. *)
Definition product {A B : Type} (xs : list A) (ys : list B) : list (A * B) :=
  flat_map (fun x => map (fun y => (x, y)) ys) xs.

(** [zip(xs, ys)] *)
Definition zip {A B : Type} (xs : list A) (ys : list B) : list (A * B) :=
  combine xs ys.

(** [itertools.chain] over a list of iterables. *)
Definition chain {A : Type} (ls : list (list A)) : list A := concat ls.

(** [functools.reduce(f, l)] without an initial value; an exception raised
    by [f] ends the fold. *)
Definition reduce {A : Type} (f : A -> A -> result A) (l : list A)
  : result A :=
  match l with
  | [] => Raise (TypeError "reduce() of empty sequence with no initial value")
  | x :: l' =>
      fold_left (fun acc y =>
                   match acc with
                   | Ok a => f a y
                   | Raise e => Raise e
                   end)
                l' (Ok x)
  end.

(** Truth value of an optional string: [None] and [''] are false. *)
Definition truthy (o : option string) : bool :=
  match o with
  | None => false
  | Some s => negb (s =? "")
  end.

(** *** Dictionaries with string keys, in insertion order *)

Definition dict (V : Type) : Type := list (string * V).

Definition keys {V : Type} (d : dict V) : list string := map fst d.
Definition items {V : Type} (d : dict V) : list (string * V) := d.

(** [d[k] = v] *)
Fixpoint setitem {V : Type} (k : string) (v : V) (d : dict V) : dict V :=
  match d with
  | [] => [(k, v)]
  | (k', v') :: d' =>
      if k' =? k then (k', v) :: d' else (k', v') :: setitem k v d'
  end.

(** [d[k]] *)
Fixpoint getitem {V : Type} (k : string) (d : dict V) : result V :=
  match d with
  | [] => Raise (KeyError k)
  | (k', v') :: d' => if k' =? k then Ok v' else getitem k d'
  end.

(** [bool(d)]: a dictionary is true when it is not empty. *)
Definition nonempty {V : Type} (d : dict V) : bool :=
  match d with [] => false | _ :: _ => true end.

(** The keys of a dictionary are pairwise distinct. *)
Definition wf {V : Type} (d : dict V) : Prop := NoDup (keys d).

End Py.
Import Py.

Definition dquote : ascii := "034"%char.
Definition space : ascii := " "%char.
Definition newline : string := String "010"%char EmptyString.

(** ** SQLAlchemy expression objects ([sqlalchemy.sql.expression as ex]) *)

Module ex.

(** [ex.literal_column(text)] *)
Record LiteralColumn : Type := literal_column { literal_text : string }.

(** [ex.text(text)] *)
Record TextClause : Type := text { text_of : string }.

(** [element.label(name)] *)
Record Label : Type := mkLabel { name : string; element : LiteralColumn }.

Definition label (c : LiteralColumn) (n : string) : Label :=
  {| name := n; element := c |}.

(** What the module passes where SQLAlchemy expects a column expression. *)
Inductive ColumnArg : Type :=
| col_str (s : string)
| col_literal (c : LiteralColumn)
| col_label (l : Label).

(** A FROM object: [ex.table(name)], or a clause element built by the
    caller, of which this module knows nothing. *)
Inductive FromClause (C : Type) : Type :=
| table (name : string)
| clause (c : C).
Arguments table {C} name.
Arguments clause {C} c.

(** A SELECT statement: its column list, FROM object, the conjuncts of its
    WHERE clause and its GROUP BY list. *)
Record Select (C : Type) : Type := mkSelect {
  columns : list ColumnArg;
  from_obj : FromClause C;
  whereclause : list TextClause;
  group_by_clause : list ColumnArg
}.

(** [ex.select(columns=..., from_obj=...)] and [ex.Select(...)] *)
Definition select {C : Type} (columns : list ColumnArg)
  (from_obj : FromClause C) : Select C :=
  mkSelect columns from_obj [] [].

(** [s.where(w)] returns a new statement with one more conjunct. *)
Definition where_ {C : Type} (s : Select C) (w : TextClause) : Select C :=
  mkSelect (columns s) (from_obj s) (whereclause s ++ [w])%list
           (group_by_clause s).

(** [s.group_by] of several clauses returns a new statement with the clauses added. *)
Definition group_by {C : Type} (s : Select C) (clauses : list ColumnArg)
  : Select C :=
  mkSelect (columns s) (from_obj s) (whereclause s)
           (group_by_clause s ++ clauses)%list.

Inductive keyword : Type := UNION | UNION_ALL.

(** A statement that can be unioned: a SELECT or a compound of two. *)
Inductive Selectable (C : Type) : Type :=
| select_stmt (s : Select C)
| CompoundSelect (kw : keyword) (l r : Selectable C).
Arguments select_stmt {C} s.
Arguments CompoundSelect {C} kw l r.

(** [s.union_all(t)]: a method of a SELECT; a compound statement has no
    such attribute. *)
Definition union_all {C : Type} (s t : Selectable C) : result (Selectable C) :=
  match s with
  | select_stmt _ => Ok (CompoundSelect UNION_ALL s t)
  | CompoundSelect _ _ _ =>
      Raise (AttributeError
               "'CompoundSelect' object has no attribute 'union_all'")
  end.

End ex.

(** ** Module-level helpers *)

Definition make_list (a : arg) : list string :=
  match a with
  | Scalar s => [s]
  | PyList l => l
  | PyTuple l => l
  end.

Definition to_sql_name (name : string) : string := replace dquote "" name.

(** ** Aggregate *)

Record Aggregate : Type := mkAggregate {
  quantities : list string;
  functions : list string;
  quantity_names : list string
}.

Definition length_mismatch : exn :=
  ValueError "Name length doesn't match quantity length".

(** [Aggregate.__init__] *)
Definition Aggregate_init (quantity function : arg) (name : option arg)
  : result Aggregate :=
  let quantities := make_list quantity in
  let functions := make_list function in
  match name with
  | Some name =>
      let quantity_names := make_list name in
      if negb (length quantity_names =? length quantities)%nat
      then Raise length_mismatch
      else Ok (mkAggregate quantities functions quantity_names)
  | None =>
      Ok (mkAggregate quantities functions
            (map (fun x => replace dquote "" x) quantities))
  end.

Definition name_template (prefix quantity_name function : string) : string :=
  prefix ++ quantity_name ++ "_" ++ function.

Definition column_template (when : option string) (function quantity : string)
  : string :=
  match when with
  | None => function ++ "(" ++ quantity ++ ")"
  | Some when =>
      function ++ "(CASE WHEN " ++ when ++ " THEN " ++ quantity ++ " END)"
  end.

(** [Aggregate.get_columns]; the generator is the list of what it yields. *)
Definition get_columns (self : Aggregate) (when prefix : option string)
  : list ex.Label :=
  let prefix := match prefix with None => "" | Some p => p end in
  map (fun '(function, (quantity, quantity_name)) =>
         let column := column_template when function quantity in
         let name := name_template prefix quantity_name function in
         ex.label (ex.literal_column column) (to_sql_name name))
      (product (functions self)
               (zip (quantities self) (quantity_names self))).

(** ** Clause helpers *)

Definition make_sql_clause {C : Type} (s : string + C)
  (constructor : string -> C) : C :=
  match s with
  | inl s => constructor s
  | inr c => c
  end.

Record CreateTableAs (C : Type) : Type := mkCreateTableAs {
  name : string;
  query : ex.Selectable C
}.

(** The compilation hook of [CreateTableAs]; [compiler] stands for
    [compiler.process]. *)
Definition _create_table_as {C : Type} (element : CreateTableAs C)
  (compiler : ex.Selectable C -> string) : string :=
  "CREATE TABLE " ++ name element ++ " AS " ++ compiler (query element).

(** ** SpacetimeAggregation *)

Section Plan.

(** Clause elements built by the caller, and what the SQL library's [str]
    makes of them and of a SELECT statement. *)
Variable ClauseElement : Type.
Variable str_clause : ex.FromClause ClauseElement -> string.
Variable str_select : ex.Select ClauseElement -> string.

Record SpacetimeAggregation : Type := mkSpacetimeAggregation {
  aggregates : list Aggregate;
  from_obj : ex.FromClause ClauseElement;
  group_intervals : dict (list string);
  dates : list string;
  prefix : string;
  suffix : string;
  date_column : string
}.

(** [self.groups] is the key view of [self.group_intervals]. *)
Definition groups (self : SpacetimeAggregation) : list string :=
  keys (group_intervals self).

(** [SpacetimeAggregation.__init__] *)
Definition SpacetimeAggregation_init (aggregates : list Aggregate)
  (group_intervals : dict (list string))
  (from_obj : string + ex.FromClause ClauseElement) (dates : list string)
  (prefix suffix date_column : option string) : SpacetimeAggregation :=
  let str_from_obj :=
    match from_obj with
    | inl s => s
    | inr c => str_clause c
    end in
  mkSpacetimeAggregation aggregates
    (make_sql_clause from_obj ex.table)
    group_intervals
    dates
    (match prefix with
     | Some p => if truthy prefix then p else str_from_obj
     | None => str_from_obj
     end)
    (match suffix with
     | Some s => if truthy suffix then s else "aggregation"
     | None => "aggregation"
     end)
    (match date_column with
     | Some d => if truthy date_column then d else "date"
     | None => "date"
     end).

(** *** Method calls: state over [self], and exceptions *)

Definition M (A : Type) : Type :=
  SpacetimeAggregation -> result A * SpacetimeAggregation.

Definition ret {A : Type} (a : A) : M A := fun self => (Ok a, self).

Definition bind {A B : Type} (m : M A) (k : A -> M B) : M B :=
  fun self =>
    match m self with
    | (Ok a, self') => k a self'
    | (Raise e, self') => (Raise e, self')
    end.

(** Reading an attribute [self.f]. *)
Definition attr {A : Type} (f : SpacetimeAggregation -> A) : M A :=
  fun self => (Ok (f self), self).

(** A computation that does not touch [self]. *)
Definition lift {A : Type} (r : result A) : M A := fun self => (r, self).

Notation "x <- m ;; k" := (bind m (fun x => k))
  (at level 61, m at next level, right associativity).
Notation "' pat <- m ;; k" := (bind m (fun x => match x with pat => k end))
  (at level 61, pat pattern, m at next level, right associativity).

(** A [for] loop that threads a local variable. *)
Fixpoint foldM {A B : Type} (body : A -> B -> M A) (l : list B) (a : A)
  : M A :=
  match l with
  | [] => ret a
  | x :: l' => a' <- body a x ;; foldM body l' a'
  end.

(** A generator expression consumed at once. *)
Fixpoint mapM {A B : Type} (f : A -> M B) (l : list A) : M (list B) :=
  match l with
  | [] => ret []
  | x :: l' => y <- f x ;; ys <- mapM f l' ;; ret (y :: ys)
  end.

(** A dictionary comprehension [{k: v for x in l}]. *)
Definition dict_comp {A V : Type} (f : A -> M (string * V)) (l : list A)
  : M (dict V) :=
  foldM (fun d x => '(k, v) <- f x ;; ret (setitem k v d)) l [].

(** *** Methods *)

Definition _get_aggregates_sql (interval date group : string)
  : M (list ex.Label) :=
  self_date_column <- attr date_column ;;
  let when :=
    if negb (interval =? "all")
    then Some ("'" ++ date ++ "' <= " ++ self_date_column
                   ++ " + interval '" ++ interval ++ "'")
    else None in
  self_prefix <- attr prefix ;;
  let prefix :=
    self_prefix ++ "_" ++ group ++ "_" ++ replace space "" interval ++ "_" in
  self_aggregates <- attr aggregates ;;
  ret (chain (map (fun a => get_columns a when (Some prefix))
                  self_aggregates)).

Definition get_selects : M (dict (list (ex.Select ClauseElement))) :=
  self_group_intervals <- attr group_intervals ;;
  foldM (fun queries '(group, intervals) =>
    let queries := setitem group [] queries in
    self_dates <- attr dates ;;
    foldM (fun queries date =>
      aggs <- mapM (fun i => _get_aggregates_sql i date group) intervals ;;
      let columns :=
        ([ex.col_str group;
          ex.col_label (ex.label (ex.literal_column ("'" ++ date ++ "'::date"))
                                 "date")]
         ++ map ex.col_label (chain aggs))%list in
      self_date_column <- attr date_column ;;
      let where_ := ex.text (self_date_column ++ " < '" ++ date ++ "'") in
      let gb_clause := make_sql_clause (inl group) ex.literal_column in
      self_from_obj <- attr from_obj ;;
      sels <- lift (getitem group queries) ;;
      ret (setitem group
             (sels ++ [ex.group_by
                         (ex.where_ (ex.select columns self_from_obj) where_)
                         [ex.col_literal gb_clause]])%list
             queries))
      self_dates queries)
    (items self_group_intervals) [].

Definition _get_table_name (group : string) : M string :=
  self_prefix <- attr prefix ;;
  ret (String dquote (to_sql_name (self_prefix ++ "_" ++ group))
         ++ String dquote "").

Definition get_creates
  (selects : option (dict (list (ex.Select ClauseElement))))
  : M (dict (CreateTableAs ClauseElement)) :=
  selects <- match selects with
             | Some d => if negb (nonempty d) then get_selects else ret d
             | None => get_selects
             end ;;
  selects <- dict_comp (fun '(group, sels) =>
               s <- lift (reduce (fun s t => ex.union_all s t)
                                 (map ex.select_stmt sels)) ;;
               ret (group, s))
             (items selects) ;;
  dict_comp (fun '(group, select) =>
    n <- _get_table_name group ;;
    ret (group, mkCreateTableAs n select))
    (items selects).

Definition get_drops : M (dict string) :=
  self_groups <- attr groups ;;
  dict_comp (fun group =>
    n <- _get_table_name group ;;
    ret (group, "DROP TABLE IF EXISTS " ++ n ++ ";"))
    self_groups.

Definition get_indexes : M (dict string) :=
  self_groups <- attr groups ;;
  dict_comp (fun group =>
    n <- _get_table_name group ;;
    ret (group, "CREATE INDEX ON " ++ n ++ " (" ++ group ++ ", "
                  ++ "date" ++ ");"))
    self_groups.

Definition get_join_table : M (ex.Select ClauseElement) :=
  self_groups <- attr groups ;;
  self_from_obj <- attr from_obj ;;
  ret (ex.group_by (ex.select (map ex.col_str self_groups) self_from_obj)
                   (map ex.col_str self_groups)).

Definition get_create (join_table : option string) : M string :=
  join_table <- (if negb (truthy join_table)
                 then t <- get_join_table ;;
                      ret ("(" ++ str_select t ++ ") t1")
                 else ret (match join_table with Some j => j | None => "" end))
                ;;
  self_prefix <- attr prefix ;;
  self_suffix <- attr suffix ;;
  let name := self_prefix ++ "_" ++ self_suffix in
  self_dates <- attr dates ;;
  let query :=
    "SELECT * FROM " ++ join_table ++ newline
    ++ "CROSS JOIN (select unnest('{" ++ join "," self_dates
    ++ "}'::date[]) as date) t2" ++ newline in
  self_groups <- attr groups ;;
  query <- foldM (fun query group =>
             n <- _get_table_name group ;;
             ret (query ++ "LEFT JOIN " ++ n ++ " USING (" ++ group
                        ++ ", date)"))
           self_groups query ;;
  ret ("CREATE TABLE " ++ name ++ " AS (" ++ query ++ ");").

Definition get_drop : M string :=
  self_prefix <- attr prefix ;;
  self_suffix <- attr suffix ;;
  let name := self_prefix ++ "_" ++ self_suffix in
  ret ("DROP TABLE IF EXISTS " ++ name).

(** *** Closed forms of the loop bodies *)

(** The [when] and [prefix] locals of [_get_aggregates_sql]. *)
Definition when_of (self : SpacetimeAggregation) (interval date : string)
  : option string :=
  if interval =? "all" then None
  else Some ("'" ++ date ++ "' <= " ++ date_column self
                 ++ " + interval '" ++ interval ++ "'").

Definition prefix_of (self : SpacetimeAggregation) (interval group : string)
  : string :=
  prefix self ++ "_" ++ group ++ "_" ++ replace space "" interval ++ "_".

(** What one call of [_get_aggregates_sql] returns. *)
Definition aggregates_sql (self : SpacetimeAggregation)
  (interval date group : string) : list ex.Label :=
  flat_map (fun a => get_columns a (when_of self interval date)
                                 (Some (prefix_of self interval group)))
           (aggregates self).

(** The statement appended by one pass of the inner loop of [get_selects]. *)
Definition select_at (self : SpacetimeAggregation) (group : string)
  (intervals : list string) (date : string) : ex.Select ClauseElement :=
  ex.mkSelect
    (ex.col_str group
     :: ex.col_label (ex.mkLabel "date"
                        (ex.literal_column ("'" ++ date ++ "'::date")))
     :: map ex.col_label
          (flat_map (fun i => aggregates_sql self i date group) intervals))
    (from_obj self)
    [ex.text (date_column self ++ " < '" ++ date ++ "'")]
    [ex.col_literal (ex.literal_column group)].

(** The quoted table name of a group. *)
Definition table_name (self : SpacetimeAggregation) (group : string)
  : string :=
  String dquote (to_sql_name (prefix self ++ "_" ++ group))
    ++ String dquote "".

(** *** Vocabulary of the statements *)

(** The name under which a column of a SELECT is known downstream. *)
Definition column_name (c : ex.ColumnArg) : string :=
  match c with
  | ex.col_str s => s
  | ex.col_literal c => ex.literal_text c
  | ex.col_label l => ex.name l
  end.

(** The SELECT statements combined by a statement, left to right. *)
Fixpoint leaves (q : ex.Selectable ClauseElement)
  : list (ex.Select ClauseElement) :=
  match q with
  | ex.select_stmt s => [s]
  | ex.CompoundSelect _ l r => (leaves l ++ leaves r)%list
  end.

(** Every combination in a statement is a UNION ALL. *)
Fixpoint only_union_all (q : ex.Selectable ClauseElement) : bool :=
  match q with
  | ex.select_stmt _ => true
  | ex.CompoundSelect kw l r =>
      match kw with ex.UNION_ALL => true | ex.UNION => false end
      && only_union_all l && only_union_all r
  end.

(** A call that leaves [self] as it found it, whatever it returns. *)
Definition readonly {A : Type} (m : M A) : Prop :=
  forall self, snd (m self) = self.

(** What the [reduce] of [get_creates] makes of the statements of a group:
    one statement is returned as it is, two are unioned, and with three or
    more the second step calls [union_all] on a compound statement. *)
Definition union_of (sels : list (ex.Select ClauseElement))
  : result (ex.Selectable ClauseElement) :=
  match sels with
  | [] => Raise (TypeError "reduce() of empty sequence with no initial value")
  | [only] => Ok (ex.select_stmt only)
  | [first; second] =>
      Ok (ex.CompoundSelect ex.UNION_ALL (ex.select_stmt first)
                            (ex.select_stmt second))
  | _ :: _ :: _ :: _ =>
      Raise (AttributeError
               "'CompoundSelect' object has no attribute 'union_all'")
  end.

(** A column of a per-date SELECT with the reference date left open: the
    aggregate function, the quantity, the interval of its window (if any)
    and the label. *)
Definition shape : Type := (string * string * option string * string)%type.

Definition dated_column (date_column date : string) (sh : shape) : ex.Label :=
  let '(f, q, window, label) := sh in
  ex.mkLabel label
    (ex.literal_column
       (column_template
          (option_map (fun interval =>
                         "'" ++ date ++ "' <= " ++ date_column
                             ++ " + interval '" ++ interval ++ "'")
                      window)
          f q)).

(** A SELECT fixed by a group and a list of column shapes everywhere but
    where the reference date is written. *)
Definition dated_select (self : SpacetimeAggregation) (group : string)
  (shapes : list shape) (date : string) : ex.Select ClauseElement :=
  ex.mkSelect
    (ex.col_str group
     :: ex.col_label (ex.mkLabel "date"
                        (ex.literal_column ("'" ++ date ++ "'::date")))
     :: map (fun sh => ex.col_label (dated_column (date_column self) date sh))
            shapes)
    (from_obj self)
    [ex.text (date_column self ++ " < '" ++ date ++ "'")]
    [ex.col_literal (ex.literal_column group)].

(** An identifier with its quote characters stripped, then quoted. *)
Definition sanitized (identifier : string) : string :=
  String dquote (to_sql_name identifier) ++ String dquote "".

(** [Aggregate(quantity, function, name).get_columns(when, prefix)] *)
Definition Aggregate_columns (quantity function : arg) (name : option arg)
  (when prefix : option string) : result (list ex.Label) :=
  match Aggregate_init quantity function name with
  | Ok a => Ok (get_columns a when prefix)
  | Raise e => Raise e
  end.

(** [SpacetimeAggregation([Aggregate(quantity, function, name)],
    group_intervals, from_obj, dates).get_selects()] *)
Definition Aggregate_selects (quantity function : arg) (name : option arg)
  (group_intervals : dict (list string))
  (from_obj : string + ex.FromClause ClauseElement) (dates : list string)
  : result (dict (list (ex.Select ClauseElement))) :=
  match Aggregate_init quantity function name with
  | Ok a =>
      fst (get_selects
             (SpacetimeAggregation_init [a] group_intervals from_obj dates
                                        None None None))
  | Raise e => Raise e
  end.

(** *** Example plans *)

Definition example_aggregate : Aggregate :=
  mkAggregate ["amount"] ["sum"; "count"] ["amount"].

(** The plan of the end-to-end example: one group, two windows, two
    reference dates. *)
Definition example_plan : SpacetimeAggregation :=
  mkSpacetimeAggregation [example_aggregate]
    (ex.table "events") [("id", ["1 month"; "all"])]
    ["2016-01-01"; "2016-02-01"] "events" "aggregation" "date".

(** The same plan with an empty list of reference dates. *)
Definition undated_plan : SpacetimeAggregation :=
  mkSpacetimeAggregation [example_aggregate]
    (ex.table "events") [("id", ["1 month"; "all"])]
    [] "events" "aggregation" "date".

(** The example plan with a third reference date. *)
Definition three_date_plan : SpacetimeAggregation :=
  mkSpacetimeAggregation [example_aggregate]
    (ex.table "events") [("id", ["1 month"; "all"])]
    ["2016-01-01"; "2016-02-01"; "2016-03-01"]
    "events" "aggregation" "date".

(** A plan whose prefix holds a quote character. *)
Definition quoted_plan : SpacetimeAggregation :=
  mkSpacetimeAggregation [example_aggregate]
    (ex.table "events") [("id", ["all"])]
    ["2016-01-01"] ("my" ++ String dquote "events") "aggregation" "date".

(** * Properties *)

(** ** The example plan, as its constructors build it *)

Example example_aggregate_init :
  Aggregate_init (Scalar "amount") (PyList ["sum"; "count"])
                 (Some (Scalar "amount"))
  = Ok example_aggregate.
Proof. reflexivity. Qed.

Example example_plan_init :
  SpacetimeAggregation_init [example_aggregate]
    [("id", ["1 month"; "all"])] (inl "events")
    ["2016-01-01"; "2016-02-01"] None None None
  = example_plan.
Proof. reflexivity. Qed.

Example example_plan_column_names :
  match fst (get_selects example_plan) with
  | Ok [(group, [s1; s2])] =>
      group = "id" /\
      map column_name (ex.columns s1)
      = ["id"; "date"; "events_id_1month_amount_sum";
         "events_id_1month_amount_count"; "events_id_all_amount_sum";
         "events_id_all_amount_count"]
  | _ => False
  end.
Proof. split; reflexivity. Qed.


(** ** Strings and lists *)

Lemma contains_append (c : ascii) (s t : string) :
  contains c (s ++ t) = contains c s || contains c t.
Proof.
  induction s as [|c' s IH]; simpl; [reflexivity|].
  now rewrite IH, orb_assoc.
Qed.

Lemma contains_replace (c : ascii) (s : string) :
  contains c (replace c "" s) = false.
Proof.
  induction s as [|c' s IH]; simpl; [reflexivity|].
  destruct (Ascii.eqb c' c) eqn:E; simpl; [exact IH|].
  now rewrite E, IH.
Qed.

Lemma replace_absent (c : ascii) (new s : string) :
  contains c s = false -> replace c new s = s.
Proof.
  induction s as [|c' s IH]; simpl; [reflexivity|].
  intros H. apply orb_false_iff in H. destruct H as [H1 H2].
  now rewrite H1, IH.
Qed.

Lemma to_sql_name_clean (s : string) : contains dquote (to_sql_name s) = false.
Proof. apply contains_replace. Qed.

Lemma length_product {A B : Type} (xs : list A) (ys : list B) :
  length (product xs ys) = length xs * length ys.
Proof.
  unfold product. induction xs as [|x xs IH]; simpl; [reflexivity|].
  now rewrite length_app, length_map, IH.
Qed.

Lemma nth_error_product {A B : Type} (xs : list A) (ys : list B) :
  forall i j x y,
    nth_error xs i = Some x -> nth_error ys j = Some y ->
    nth_error (product xs ys) (i * length ys + j) = Some (x, y).
Proof.
  unfold product. induction xs as [|x0 xs IH]; intros i j x y Hx Hy.
  - destruct i; discriminate.
  - destruct i as [|i]; simpl in *.
    + injection Hx as ->.
      assert (Hj : j < length ys) by (apply nth_error_Some; congruence).
      rewrite nth_error_app1 by (now rewrite length_map).
      now rewrite nth_error_map, Hy.
    + rewrite nth_error_app2 by (rewrite length_map; lia).
      rewrite length_map.
      replace (length ys + i * length ys + j - length ys)
        with (i * length ys + j) by lia.
      now apply IH.
Qed.

Lemma in_product {A B : Type} (xs : list A) (ys : list B) (x : A) (y : B) :
  In (x, y) (product xs ys) <-> In x xs /\ In y ys.
Proof.
  unfold product. rewrite in_flat_map. split.
  - intros (x' & Hx & Hin). apply in_map_iff in Hin.
    destruct Hin as (y' & Heq & Hy). now inversion Heq; subst.
  - intros [Hx Hy]. exists x. split; [assumption|].
    apply in_map_iff. now exists y.
Qed.

Lemma nth_error_zip {A B : Type} (xs : list A) :
  forall (ys : list B) j x y,
    nth_error xs j = Some x -> nth_error ys j = Some y ->
    nth_error (zip xs ys) j = Some (x, y).
Proof.
  unfold zip. induction xs as [|x0 xs IH]; intros ys j x y Hx Hy.
  - destruct j; discriminate.
  - destruct ys as [|y0 ys]; [destruct j; discriminate|].
    destruct j as [|j]; simpl in *.
    + congruence.
    + now apply IH.
Qed.

Lemma in_zip_same_index {A B : Type} (xs : list A) (ys : list B) (x : A)
  (y : B) :
  In (x, y) (zip xs ys) <->
  exists j, nth_error xs j = Some x /\ nth_error ys j = Some y.
Proof.
  unfold zip. revert ys. induction xs as [|x0 xs IH]; intros ys.
  - simpl. split; [intros []|]. intros ([|j] & H & _); discriminate.
  - destruct ys as [|y0 ys]; simpl.
    + split; [intros []|]. intros ([|j] & _ & H); discriminate.
    + split.
      * intros [Heq | Hin].
        -- inversion Heq; subst. now exists 0.
        -- apply IH in Hin. destruct Hin as (j & Hx & Hy). now exists (S j).
      * intros ([|j] & Hx & Hy); simpl in *.
        -- left. congruence.
        -- right. apply IH. now exists j.
Qed.

(** ** Aggregate *)

Lemma Aggregate_init_fields (quantity function : arg) (name : option arg)
  (a : Aggregate) :
  Aggregate_init quantity function name = Ok a ->
  quantities a = make_list quantity /\
  functions a = make_list function /\
  length (quantity_names a) = length (make_list quantity) /\
  quantity_names a =
    match name with
    | Some nm => make_list nm
    | None => map to_sql_name (make_list quantity)
    end.
Proof.
  unfold Aggregate_init. destruct name as [nm|].
  - destruct (length (make_list nm) =? length (make_list quantity))%nat eqn:E;
      simpl; [|discriminate].
    intros H. injection H as <-. simpl.
    apply Nat.eqb_eq in E. auto.
  - intros H. injection H as <-. simpl. rewrite length_map. auto.
Qed.

Lemma get_columns_nth (a : Aggregate) (when prefix : option string) :
  forall i j f q n,
    nth_error (functions a) i = Some f ->
    nth_error (quantities a) j = Some q ->
    nth_error (quantity_names a) j = Some n ->
    length (quantity_names a) = length (quantities a) ->
    nth_error (get_columns a when prefix) (i * length (quantities a) + j) =
      Some (ex.label (ex.literal_column (column_template when f q))
              (to_sql_name
                 (name_template (match prefix with Some p => p | None => "" end)
                                n f))).
Proof.
  intros i j f q n Hf Hq Hn Hlen. unfold get_columns.
  rewrite nth_error_map.
  assert (Hz : length (zip (quantities a) (quantity_names a))
               = length (quantities a)).
  { unfold zip. rewrite length_combine. lia. }
  rewrite <- Hz.
  rewrite (nth_error_product _ _ _ _ Hf (nth_error_zip _ _ _ Hq Hn)).
  reflexivity.
Qed.

Lemma in_get_columns (self : Aggregate) (when prefix : option string)
  (c : ex.Label) :
  In c (get_columns self when prefix) <->
  exists f q n j,
    In f (functions self) /\
    nth_error (quantities self) j = Some q /\
    nth_error (quantity_names self) j = Some n /\
    c = ex.label (ex.literal_column (column_template when f q))
          (to_sql_name
             (name_template (match prefix with Some p => p | None => "" end)
                            n f)).
Proof.
  unfold get_columns. rewrite in_map_iff. split.
  - intros ([f [q n]] & Hc & Hin). apply in_product in Hin.
    destruct Hin as [Hf Hz]. apply in_zip_same_index in Hz.
    destruct Hz as (j & Hq & Hn). exists f, q, n, j. now subst c.
  - intros (f & q & n & j & Hf & Hq & Hn & ->).
    exists (f, (q, n)). split; [reflexivity|].
    apply in_product. split; [assumption|].
    apply in_zip_same_index. eauto.
Qed.

(** C1. An Aggregate constructed from Q quantities and F functions (a scalar
    argument counting as a one-element collection) yields, on every call of
    get_columns, exactly F*Q labeled columns; the column at position i*Q+j is
    the one of function i and of quantity j paired with name j, so the
    enumeration is function-major and quantities and names are zipped. *)
Theorem get_columns_cross_product (quantity function : arg)
  (name : option arg) (a : Aggregate) (when prefix : option string) :
  Aggregate_init quantity function name = Ok a ->
  let F := length (make_list function) in
  let Q := length (make_list quantity) in
  (forall s, make_list (Scalar s) = [s]) /\
  quantity_names a =
    match name with
    | Some nm => make_list nm
    | None => map to_sql_name (make_list quantity)
    end /\
  length (quantity_names a) = Q /\
  length (get_columns a when prefix) = F * Q /\
  forall i j f q n,
    nth_error (make_list function) i = Some f ->
    nth_error (make_list quantity) j = Some q ->
    nth_error (quantity_names a) j = Some n ->
    nth_error (get_columns a when prefix) (i * Q + j) =
      Some (ex.label (ex.literal_column (column_template when f q))
              (to_sql_name
                 (name_template (match prefix with Some p => p | None => "" end)
                                n f))).
Proof.
  intros Hinit F Q.
  destruct (Aggregate_init_fields _ _ _ Hinit) as (Hq & Hf & Hlen & Hnames).
  split; [reflexivity|]. split; [exact Hnames|]. split; [exact Hlen|]. split.
  - unfold get_columns. rewrite length_map, length_product.
    unfold zip. rewrite length_combine, Hlen, Hf, Hq.
    subst F Q. now rewrite Nat.min_id.
  - intros i j f q n Hi Hj Hn. subst Q. rewrite <- Hq.
    apply get_columns_nth; rewrite ?Hf, ?Hq; auto.
Qed.

(** C6. Constructing an Aggregate raises the length-mismatch error exactly
    when a names argument is given whose length differs from the number of
    quantities; it succeeds exactly when names is omitted or has that
    length; no other error is raised, and when construction fails, asking
    the would-be Aggregate for its columns, or a plan made of it for its
    statements, fails with the same error, so nothing is generated. *)
Theorem Aggregate_init_length_mismatch (quantity function : arg)
  (name : option arg) :
  (Aggregate_init quantity function name = Raise length_mismatch <->
   exists nm, name = Some nm /\
              length (make_list nm) <> length (make_list quantity)) /\
  ((exists a, Aggregate_init quantity function name = Ok a) <->
   (name = None \/
    exists nm, name = Some nm /\
               length (make_list nm) = length (make_list quantity))) /\
  (forall e, Aggregate_init quantity function name = Raise e ->
     e = length_mismatch /\
     (forall when prefix,
         Aggregate_columns quantity function name when prefix = Raise e) /\
     (forall group_intervals from_obj dates,
         Aggregate_selects quantity function name group_intervals from_obj
                           dates = Raise e)).
Proof.
  unfold Aggregate_selects, Aggregate_columns, Aggregate_init.
  destruct name as [nm|].
  - destruct (Nat.eqb_spec (length (make_list nm))
                           (length (make_list quantity))) as [E|E]; simpl.
    + split; [|split].
      * split; [discriminate|]. intros (nm' & Heq & Hne).
        injection Heq as <-. contradiction.
      * split; [|eauto]. intros _. right. eauto.
      * intros e H. discriminate.
    + split; [|split].
      * split; [|reflexivity]. intros _. eauto.
      * split; [intros (a & H); discriminate|].
        intros [H | (nm' & Heq & Hlen)]; [discriminate|].
        injection Heq as <-. contradiction.
      * intros e H. injection H as <-. repeat split; reflexivity.
  - split; [|split].
    + split; [discriminate|]. intros (nm & H & _). discriminate.
    + split; [|eauto]. intros _. now left.
    + intros e H. discriminate.
Qed.

(** C9. A column is yielded by get_columns exactly when it is, for a
    function f and a quantity q paired by position with a name n, the
    expression f(q) (no predicate) or f(CASE WHEN predicate THEN q END),
    labeled with prefix, n, an underscore and f, quote characters stripped
    from the whole label. *)
Theorem get_columns_rendering (self : Aggregate) (when prefix : option string)
  (c : ex.Label) :
  (In c (get_columns self when prefix) <->
   exists f q n j,
     In f (functions self) /\
     nth_error (quantities self) j = Some q /\
     nth_error (quantity_names self) j = Some n /\
     ex.literal_text (ex.element c) =
       match when with
       | None => f ++ "(" ++ q ++ ")"
       | Some predicate =>
           f ++ "(CASE WHEN " ++ predicate ++ " THEN " ++ q ++ " END)"
       end /\
     ex.name c =
       replace dquote ""
         (match prefix with Some p => p | None => "" end ++ n ++ "_" ++ f)) /\
  (In c (get_columns self when prefix) ->
   contains dquote (ex.name c) = false).
Proof.
  split.
  - rewrite in_get_columns. split.
    + intros (f & q & n & j & Hf & Hq & Hn & ->).
      exists f, q, n, j. repeat split; auto.
    + intros (f & q & n & j & Hf & Hq & Hn & Htext & Hname).
      exists f, q, n, j. repeat split; auto.
      destruct c as [cn [ct]]. simpl in *. subst cn ct.
      unfold ex.label, column_template. now destruct when.
  - rewrite in_get_columns. intros (f & q & n & j & _ & _ & _ & ->).
    apply to_sql_name_clean.
Qed.

(** ** Dictionaries *)

Lemma getitem_setitem {V : Type} (k : string) (v : V) (d : dict V) :
  getitem k (setitem k v d) = Ok v.
Proof.
  induction d as [|[k' v'] d IH]; simpl.
  - now rewrite String.eqb_refl.
  - destruct (k' =? k) eqn:E; simpl; now rewrite E.
Qed.

Lemma setitem_setitem {V : Type} (k : string) (v v' : V) (d : dict V) :
  setitem k v' (setitem k v d) = setitem k v' d.
Proof.
  induction d as [|[k0 v0] d IH]; simpl.
  - now rewrite String.eqb_refl.
  - destruct (k0 =? k) eqn:E; simpl; rewrite E; [reflexivity|].
    now rewrite IH.
Qed.

Lemma setitem_fresh {V : Type} (k : string) (v : V) (d : dict V) :
  ~ In k (keys d) -> setitem k v d = (d ++ [(k, v)])%list.
Proof.
  induction d as [|[k0 v0] d IH]; simpl; intros Hk; [reflexivity|].
  destruct (String.eqb_spec k0 k) as [->|Hne].
  - exfalso. apply Hk. now left.
  - rewrite IH; [reflexivity|]. intros Hin. apply Hk. now right.
Qed.

Lemma keys_app {V : Type} (d d' : dict V) :
  keys (d ++ d')%list = (keys d ++ keys d')%list.
Proof. apply map_app. Qed.

(** ** Method calls *)

Lemma bind_Ok {A B : Type} (m : M A) (k : A -> M B) (a : A)
  (self : SpacetimeAggregation) :
  m self = (Ok a, self) -> bind m k self = k a self.
Proof. unfold bind. now intros ->. Qed.

Lemma bind_Raise {A B : Type} (m : M A) (k : A -> M B) (e : exn)
  (self : SpacetimeAggregation) :
  m self = (Raise e, self) -> bind m k self = (Raise e, self).
Proof. unfold bind. now intros ->. Qed.

Lemma mapM_Ok {A B : Type} (f : A -> M B) (g : A -> B) (l : list A)
  (self : SpacetimeAggregation) :
  (forall x, In x l -> f x self = (Ok (g x), self)) ->
  mapM f l self = (Ok (map g l), self).
Proof.
  induction l as [|x l IH]; intros H; simpl; [reflexivity|].
  rewrite (bind_Ok _ _ (H x (or_introl eq_refl))).
  rewrite (bind_Ok _ _ (IH (fun y Hy => H y (or_intror Hy)))).
  reflexivity.
Qed.

Lemma dict_comp_Ok {A V : Type} (f : A -> M (string * V)) (kf : A -> string)
  (vf : A -> V) (self : SpacetimeAggregation) :
  forall (l : list A) (d : dict V),
    (forall x, In x l -> f x self = (Ok (kf x, vf x), self)) ->
    NoDup (keys d ++ map kf l) ->
    foldM (fun d x => '(k, v) <- f x ;; ret (setitem k v d)) l d self
    = (Ok (d ++ map (fun x => (kf x, vf x)) l)%list, self).
Proof.
  induction l as [|x l IH]; intros d H Hnd; simpl.
  - now rewrite app_nil_r.
  - rewrite (bind_Ok _ _ (bind_Ok _ _ (H x (or_introl eq_refl)))).
    assert (Hx : ~ In (kf x) (keys d)).
    { intros Hin. apply NoDup_remove_2 in Hnd. apply Hnd.
      apply in_or_app. now left. }
    rewrite setitem_fresh by exact Hx.
    rewrite IH.
    + now rewrite <- app_assoc.
    + intros y Hy. apply H. now right.
    + rewrite keys_app, <- app_assoc. exact Hnd.
Qed.

Lemma readonly_ret {A : Type} (a : A) : readonly (ret a).
Proof. now intros self. Qed.

Lemma readonly_attr {A : Type} (f : SpacetimeAggregation -> A) :
  readonly (attr f).
Proof. now intros self. Qed.

Lemma readonly_lift {A : Type} (r : result A) : readonly (lift r).
Proof. now intros self. Qed.

Lemma readonly_bind {A B : Type} (m : M A) (k : A -> M B) :
  readonly m -> (forall a, readonly (k a)) -> readonly (bind m k).
Proof.
  intros Hm Hk self. unfold bind. specialize (Hm self).
  destruct (m self) as [[a|e] self']; simpl in *; subst self'.
  - apply Hk.
  - reflexivity.
Qed.

Lemma readonly_foldM {A B : Type} (body : A -> B -> M A) (l : list B) :
  (forall a x, readonly (body a x)) -> forall a, readonly (foldM body l a).
Proof.
  intros H. induction l as [|x l IH]; intros a; simpl.
  - apply readonly_ret.
  - apply readonly_bind; [apply H | exact IH].
Qed.

Lemma readonly_mapM {A B : Type} (f : A -> M B) (l : list A) :
  (forall x, readonly (f x)) -> readonly (mapM f l).
Proof.
  intros H. induction l as [|x l IH]; simpl.
  - apply readonly_ret.
  - apply readonly_bind; [apply H|]. intros y.
    apply readonly_bind; [exact IH|]. intros ys. apply readonly_ret.
Qed.

Lemma readonly_dict_comp {A V : Type} (f : A -> M (string * V))
  (l : list A) :
  (forall x, readonly (f x)) -> readonly (dict_comp f l).
Proof.
  intros H. unfold dict_comp. apply readonly_foldM. intros d x.
  apply readonly_bind; [apply H|]. intros [k v]. apply readonly_ret.
Qed.

Create HintDb readonly.
#[local] Hint Resolve readonly_ret readonly_attr readonly_lift
  readonly_foldM readonly_mapM readonly_dict_comp : readonly.

Ltac readonly_solve :=
  repeat (first
    [ apply readonly_bind; [|intro]
    | apply readonly_foldM; intros
    | apply readonly_mapM; intros
    | apply readonly_dict_comp; intros
    | match goal with
      | |- readonly (match ?x with _ => _ end) => destruct x
      end
    | solve [auto with readonly] ]).

Lemma readonly_get_aggregates_sql (interval date group : string) :
  readonly (_get_aggregates_sql interval date group).
Proof. unfold _get_aggregates_sql. readonly_solve. Qed.
#[local] Hint Resolve readonly_get_aggregates_sql : readonly.

Lemma readonly_get_selects : readonly get_selects.
Proof. unfold get_selects. readonly_solve. Qed.
#[local] Hint Resolve readonly_get_selects : readonly.

Lemma readonly_get_table_name (group : string) :
  readonly (_get_table_name group).
Proof. unfold _get_table_name. readonly_solve. Qed.
#[local] Hint Resolve readonly_get_table_name : readonly.

Lemma readonly_get_creates
  (selects : option (dict (list (ex.Select ClauseElement)))) :
  readonly (get_creates selects).
Proof. unfold get_creates. readonly_solve. Qed.

Lemma readonly_get_drops : readonly get_drops.
Proof. unfold get_drops. readonly_solve. Qed.

Lemma readonly_get_indexes : readonly get_indexes.
Proof. unfold get_indexes. readonly_solve. Qed.

(** ** What the methods return *)

Lemma get_aggregates_sql_run (self : SpacetimeAggregation)
  (interval date group : string) :
  _get_aggregates_sql interval date group self
  = (Ok (aggregates_sql self interval date group), self).
Proof.
  unfold _get_aggregates_sql, aggregates_sql, when_of, prefix_of, chain.
  unfold bind, attr, ret. rewrite flat_map_concat_map.
  now destruct (interval =? "all").
Qed.

Lemma get_selects_run (self : SpacetimeAggregation) :
  wf (group_intervals self) ->
  get_selects self
  = (Ok (map (fun '(group, intervals) =>
                (group, map (select_at self group intervals) (dates self)))
             (group_intervals self)), self).
Proof.
  intros Hwf. unfold get_selects.
  rewrite (bind_Ok _ _ (a := group_intervals self)) by reflexivity.
  unfold items.
  match goal with |- foldM ?body _ _ _ = _ => set (outer := body) end.
  enough (H : forall l acc,
             NoDup (keys acc ++ keys l) ->
             foldM outer l acc self
             = (Ok (acc ++ map (fun '(group, intervals) =>
                       (group,
                        map (select_at self group intervals) (dates self)))
                     l)%list, self)).
  { apply (H _ []). exact Hwf. }
  induction l as [|[group intervals] l IH]; intros acc Hnd.
  - simpl. now rewrite app_nil_r.
  - assert (Hfresh : ~ In group (keys acc)).
    { intros Hin. apply NoDup_remove_2 in Hnd. apply Hnd.
      apply in_or_app. now left. }
    assert (Hstep : outer acc (group, intervals) self
                    = (Ok (acc ++ [(group, map (select_at self group intervals)
                                               (dates self))])%list, self)).
    { unfold outer. rewrite (bind_Ok _ _ (a := dates self)) by reflexivity.
      match goal with |- foldM ?body _ _ _ = _ => set (inner := body) end.
      assert (Hin : forall ds sels q,
                 foldM inner ds (setitem group sels q) self
                 = (Ok (setitem group
                          (sels ++ map (select_at self group intervals) ds)%list
                          q), self)).
      { induction ds as [|date ds IHd]; intros sels q.
        - simpl. now rewrite app_nil_r.
        - assert (Hb : inner (setitem group sels q) date self
                       = (Ok (setitem group
                                (sels ++ [select_at self group intervals date])%list
                                q), self)).
          { unfold inner.
            rewrite (bind_Ok _ _
                       (mapM_Ok _ (fun i => aggregates_sql self i date group)
                          _ (fun x _ =>
                               get_aggregates_sql_run self x date group))).
            unfold bind, attr, lift, ret.
            rewrite getitem_setitem, setitem_setitem.
            unfold chain. rewrite <- flat_map_concat_map. reflexivity. }
          cbn [foldM]. rewrite (bind_Ok _ _ Hb), IHd.
          now rewrite <- app_assoc. }
      rewrite Hin. now rewrite setitem_fresh. }
    cbn [foldM]. rewrite (bind_Ok _ _ Hstep), IH.
    + now rewrite <- app_assoc.
    + rewrite keys_app, <- app_assoc. exact Hnd.
Qed.

Lemma keys_map_values {V W : Type} (g : string -> V -> W) (d : dict V) :
  keys (map (fun '(k, v) => (k, g k v)) d) = keys d.
Proof.
  unfold keys. rewrite map_map. apply map_ext. now intros [k v].
Qed.

Lemma getitem_In {V : Type} (k : string) (v : V) (d : dict V) :
  wf d -> In (k, v) d -> getitem k d = Ok v.
Proof.
  unfold wf. induction d as [|[k0 v0] d IH]; simpl; [intros _ []|].
  intros Hnd [Heq | Hin].
  - injection Heq as -> ->. now rewrite String.eqb_refl.
  - inversion Hnd as [|? ? Hnotin Hnd']; subst.
    destruct (String.eqb_spec k0 k) as [->|Hne].
    + exfalso. apply Hnotin. apply in_map_iff. now exists (k, v).
    + now apply IH.
Qed.

Lemma dict_comp_items {V W : Type} (f : string * V -> M (string * W))
  (g : string -> V -> W) (d : dict V) (self : SpacetimeAggregation) :
  wf d ->
  (forall k v, In (k, v) d -> f (k, v) self = (Ok (k, g k v), self)) ->
  dict_comp f (items d) self
  = (Ok (map (fun '(k, v) => (k, g k v)) d), self).
Proof.
  intros Hwf Hf. unfold dict_comp, items.
  rewrite (@dict_comp_Ok _ _ f fst (fun x => g (fst x) (snd x)) self d []).
  - simpl. f_equal. f_equal. apply map_ext. now intros [k v].
  - intros [k v] Hin. now apply Hf.
  - exact Hwf.
Qed.

Lemma dict_comp_keys {V : Type} (f : string -> M (string * V))
  (g : string -> V) (l : list string) (self : SpacetimeAggregation) :
  NoDup l ->
  (forall k, In k l -> f k self = (Ok (k, g k), self)) ->
  dict_comp f l self = (Ok (map (fun k => (k, g k)) l), self).
Proof.
  intros Hnd Hf. unfold dict_comp.
  rewrite (@dict_comp_Ok _ _ f (fun k => k) g self l []).
  - reflexivity.
  - exact Hf.
  - simpl. now rewrite map_id.
Qed.

Lemma get_table_name_run (self : SpacetimeAggregation) (group : string) :
  _get_table_name group self = (Ok (table_name self group), self).
Proof. reflexivity. Qed.

Lemma get_drops_run (self : SpacetimeAggregation) :
  wf (group_intervals self) ->
  get_drops self
  = (Ok (map (fun group =>
                (group, "DROP TABLE IF EXISTS " ++ table_name self group
                          ++ ";"))
             (groups self)), self).
Proof.
  intros Hwf. unfold get_drops.
  rewrite (bind_Ok _ _ (a := groups self)) by reflexivity.
  apply dict_comp_keys; [exact Hwf|]. reflexivity.
Qed.

Lemma get_indexes_run (self : SpacetimeAggregation) :
  wf (group_intervals self) ->
  get_indexes self
  = (Ok (map (fun group =>
                (group, "CREATE INDEX ON " ++ table_name self group ++ " ("
                          ++ group ++ ", date);"))
             (groups self)), self).
Proof.
  intros Hwf. unfold get_indexes.
  rewrite (bind_Ok _ _ (a := groups self)) by reflexivity.
  apply dict_comp_keys; [exact Hwf|]. reflexivity.
Qed.


Lemma dict_comp_raise {A V : Type} (f : A -> M (string * V))
  (E : exn -> Prop) (self : SpacetimeAggregation) :
  forall (l : list A) (d : dict V),
    (forall x, In x l ->
       (exists e, f x self = (Raise e, self) /\ E e) \/
       exists kv, f x self = (Ok kv, self)) ->
    Exists (fun x => exists e, f x self = (Raise e, self)) l ->
    exists e,
      foldM (fun d x => '(k, v) <- f x ;; ret (setitem k v d)) l d self
      = (Raise e, self) /\ E e.
Proof.
  induction l as [|x l IH]; intros d H Hex; [inversion Hex|].
  cbn [foldM].
  destruct (H x (or_introl eq_refl)) as [(e & Hx & He) | ([k v] & Hx)].
  - exists e. split; [|exact He].
    now rewrite (bind_Raise _ _ (bind_Raise _ _ Hx)).
  - rewrite (bind_Ok _ _ (bind_Ok _ _ Hx)).
    apply IH.
    + intros y Hy. apply H. now right.
    + inversion Hex as [? ? Hhead | ? ? Htail]; subst; [|exact Htail].
      destruct Hhead as (e & Hhead). rewrite Hx in Hhead. discriminate Hhead.
Qed.

(** *** The fold of get_creates *)

Lemma fold_left_Raise {A : Type} (f : A -> A -> result A) (l : list A)
  (e : exn) :
  fold_left (fun acc y =>
               match acc with
               | Ok a => f a y
               | Raise e => Raise e
               end)
            l (Raise e)
  = Raise e.
Proof. induction l as [|x l IH]; simpl; [reflexivity | exact IH]. Qed.

Lemma reduce_union_all (sels : list (ex.Select ClauseElement)) :
  reduce (fun s t => ex.union_all s t) (map ex.select_stmt sels)
  = union_of sels.
Proof.
  destruct sels as [|s [|t [|u r]]]; try reflexivity.
  simpl. apply fold_left_Raise.
Qed.

Lemma union_of_Ok (sels : list (ex.Select ClauseElement))
  (q : ex.Selectable ClauseElement) :
  union_of sels = Ok q ->
  (length sels = 1 \/ length sels = 2) /\
  leaves q = sels /\
  only_union_all q = true /\
  (forall only, sels = [only] -> q = ex.select_stmt only) /\
  (forall first second,
      sels = [first; second] ->
      q = ex.CompoundSelect ex.UNION_ALL (ex.select_stmt first)
                            (ex.select_stmt second)).
Proof.
  destruct sels as [|s [|t [|u r]]]; simpl; intros H;
    try discriminate H; injection H as <-.
  - repeat split; auto. intros only Heq. now injection Heq as <-.
    intros first second Heq. discriminate Heq.
  - repeat split; auto. intros only Heq. discriminate Heq.
    intros first second Heq. now injection Heq as <- <-.
Qed.

Lemma union_of_short (sels : list (ex.Select ClauseElement)) :
  length sels = 1 \/ length sels = 2 -> exists q, union_of sels = Ok q.
Proof.
  destruct sels as [|s [|t [|u r]]]; simpl; intros [H | H];
    try discriminate H; eexists; reflexivity.
Qed.

Lemma union_of_empty (sels : list (ex.Select ClauseElement)) :
  length sels = 0 ->
  union_of sels
  = Raise (TypeError "reduce() of empty sequence with no initial value").
Proof. destruct sels; [reflexivity | discriminate]. Qed.

Lemma union_of_long (sels : list (ex.Select ClauseElement)) :
  3 <= length sels ->
  union_of sels
  = Raise (AttributeError
             "'CompoundSelect' object has no attribute 'union_all'").
Proof.
  destruct sels as [|s [|t [|u r]]]; simpl; intros H; try lia. reflexivity.
Qed.

Lemma union_stage_Ok (self : SpacetimeAggregation)
  (d : dict (list (ex.Select ClauseElement)))
  (Q : string -> list (ex.Select ClauseElement)
       -> ex.Selectable ClauseElement) :
  wf d ->
  (forall k v, In (k, v) d -> union_of v = Ok (Q k v)) ->
  dict_comp (fun '(group, sels) =>
               s <- lift (reduce (fun s t => ex.union_all s t)
                                 (map ex.select_stmt sels)) ;;
               ret (group, s))
            (items d) self
  = (Ok (map (fun '(k, v) => (k, Q k v)) d), self).
Proof.
  intros Hwf H. apply dict_comp_items; [exact Hwf|].
  intros k v Hin. unfold bind, lift, ret.
  now rewrite reduce_union_all, (H k v Hin).
Qed.

Lemma union_stage_Raise (self : SpacetimeAggregation)
  (d : dict (list (ex.Select ClauseElement))) (E : exn -> Prop) :
  (forall k v, In (k, v) d ->
     (exists e, union_of v = Raise e /\ E e) \/ exists q, union_of v = Ok q) ->
  Exists (fun x => exists e, union_of (snd x) = Raise e) d ->
  exists e,
    dict_comp (fun '(group, sels) =>
                 s <- lift (reduce (fun s t => ex.union_all s t)
                                   (map ex.select_stmt sels)) ;;
                 ret (group, s))
              (items d) self
    = (Raise e, self) /\ E e.
Proof.
  intros H Hex. unfold dict_comp, items. apply dict_comp_raise.
  - intros [k v] Hin. unfold bind, lift, ret. rewrite reduce_union_all.
    destruct (H k v Hin) as [(e & -> & He) | (q & ->)].
    + left. exists e. now split.
    + right. eexists. reflexivity.
  - apply Exists_exists in Hex. destruct Hex as ([k v] & Hin & e & He).
    apply Exists_exists. exists (k, v). split; [exact Hin|].
    exists e. unfold bind, lift, ret. rewrite reduce_union_all.
    simpl in He. now rewrite He.
Qed.

Lemma name_stage (self : SpacetimeAggregation)
  (d : dict (ex.Selectable ClauseElement)) :
  wf d ->
  dict_comp (fun '(group, select) =>
               n <- _get_table_name group ;;
               ret (group, mkCreateTableAs n select))
            (items d) self
  = (Ok (map (fun '(k, v) => (k, mkCreateTableAs (table_name self k) v)) d),
     self).
Proof.
  intros Hwf.
  apply (dict_comp_items _
           (fun k v => mkCreateTableAs (table_name self k) v)); [exact Hwf|].
  intros k v _. reflexivity.
Qed.

Lemma creates_of_Ok (self : SpacetimeAggregation)
  (d : dict (list (ex.Select ClauseElement)))
  (Q : string -> list (ex.Select ClauseElement)
       -> ex.Selectable ClauseElement) :
  wf d ->
  (forall k v, In (k, v) d -> union_of v = Ok (Q k v)) ->
  (selects <- dict_comp (fun '(group, sels) =>
                 s <- lift (reduce (fun s t => ex.union_all s t)
                                   (map ex.select_stmt sels)) ;;
                 ret (group, s))
               (items d) ;;
   dict_comp (fun '(group, select) =>
                n <- _get_table_name group ;;
                ret (group, mkCreateTableAs n select))
             (items selects)) self
  = (Ok (map (fun '(k, v) =>
                (k, mkCreateTableAs (table_name self k) (Q k v))) d),
     self).
Proof.
  intros Hwf H. rewrite (bind_Ok _ _ (union_stage_Ok self Q Hwf H)).
  rewrite name_stage.
  - f_equal. f_equal. rewrite map_map. apply map_ext. now intros [k v].
  - unfold wf. now rewrite keys_map_values.
Qed.

Lemma creates_of_Raise (self : SpacetimeAggregation)
  (d : dict (list (ex.Select ClauseElement))) (E : exn -> Prop) :
  (forall k v, In (k, v) d ->
     (exists e, union_of v = Raise e /\ E e) \/ exists q, union_of v = Ok q) ->
  Exists (fun x => exists e, union_of (snd x) = Raise e) d ->
  exists e,
    (selects <- dict_comp (fun '(group, sels) =>
                   s <- lift (reduce (fun s t => ex.union_all s t)
                                     (map ex.select_stmt sels)) ;;
                   ret (group, s))
                 (items d) ;;
     dict_comp (fun '(group, select) =>
                  n <- _get_table_name group ;;
                  ret (group, mkCreateTableAs n select))
               (items selects)) self
    = (Raise e, self) /\ E e.
Proof.
  intros H Hex.
  destruct (union_stage_Raise self E H Hex) as (e & Hrun & He).
  exists e. split; [|exact He]. now apply bind_Raise.
Qed.

Lemma get_creates_None_Ok (self : SpacetimeAggregation) :
  wf (group_intervals self) ->
  (forall g ivs, In (g, ivs) (group_intervals self) ->
     exists q, union_of (map (select_at self g ivs) (dates self)) = Ok q) ->
  exists Q,
    (forall g ivs, In (g, ivs) (group_intervals self) ->
       union_of (map (select_at self g ivs) (dates self)) = Ok (Q g ivs)) /\
    get_creates None self
    = (Ok (map (fun '(g, ivs) =>
                  (g, mkCreateTableAs (table_name self g) (Q g ivs)))
               (group_intervals self)), self).
Proof.
  intros Hwf Hall.
  set (pick := fun (k : string) (v : list (ex.Select ClauseElement)) =>
                 match union_of v with
                 | Ok q => q
                 | Raise _ => ex.select_stmt (ex.select [] (from_obj self))
                 end).
  exists (fun g ivs => pick g (map (select_at self g ivs) (dates self))).
  split.
  - intros g ivs Hin. unfold pick.
    destruct (Hall g ivs Hin) as (q & ->). reflexivity.
  - unfold get_creates. rewrite (bind_Ok _ _ (get_selects_run self Hwf)).
    rewrite (creates_of_Ok self pick).
    + f_equal. f_equal. rewrite map_map. apply map_ext. now intros [g ivs].
    + unfold wf.
      now rewrite (keys_map_values
                     (fun g ivs => map (select_at self g ivs) (dates self))).
    + intros k v Hin. apply in_map_iff in Hin.
      destruct Hin as ([g ivs] & Heq & Hin). injection Heq as <- <-.
      unfold pick. destruct (Hall g ivs Hin) as (q & ->). reflexivity.
Qed.

Lemma get_creates_None_Raise (self : SpacetimeAggregation) (e : exn) :
  wf (group_intervals self) ->
  group_intervals self <> [] ->
  (forall g ivs, In (g, ivs) (group_intervals self) ->
     union_of (map (select_at self g ivs) (dates self)) = Raise e) ->
  get_creates None self = (Raise e, self).
Proof.
  intros Hwf Hne Hall. unfold get_creates.
  rewrite (bind_Ok _ _ (get_selects_run self Hwf)).
  destruct (@creates_of_Raise self
              (map (fun '(group, intervals) =>
                      (group,
                       map (select_at self group intervals) (dates self)))
                   (group_intervals self))
              (fun e' => e' = e)) as (e' & Hrun & ->).
  - intros k v Hin. apply in_map_iff in Hin.
    destruct Hin as ([g ivs] & Heq & Hin). injection Heq as <- <-.
    left. exists e. split; [now apply Hall | reflexivity].
  - destruct (group_intervals self) as [|[g ivs] gi]; [contradiction|].
    constructor. exists e. simpl. apply Hall. now left.
  - exact Hrun.
Qed.

Lemma get_creates_None_cases (self : SpacetimeAggregation) :
  wf (group_intervals self) ->
  (exists Q,
      (group_intervals self = [] \/ length (dates self) = 1
       \/ length (dates self) = 2) /\
      (forall g ivs, In (g, ivs) (group_intervals self) ->
         union_of (map (select_at self g ivs) (dates self)) = Ok (Q g ivs)) /\
      get_creates None self
      = (Ok (map (fun '(g, ivs) =>
                    (g, mkCreateTableAs (table_name self g) (Q g ivs)))
                 (group_intervals self)), self)) \/
  (group_intervals self <> [] /\ dates self = [] /\
   get_creates None self
   = (Raise (TypeError "reduce() of empty sequence with no initial value"),
      self)) \/
  (group_intervals self <> [] /\ 3 <= length (dates self) /\
   get_creates None self
   = (Raise (AttributeError
               "'CompoundSelect' object has no attribute 'union_all'"),
      self)).
Proof.
  intros Hwf.
  assert (Hgi : group_intervals self = [] \/ group_intervals self <> []).
  { destruct (group_intervals self); [now left | right; discriminate]. }
  assert (Hlen : length (dates self) = 0
                 \/ (length (dates self) = 1 \/ length (dates self) = 2)
                 \/ 3 <= length (dates self)) by lia.
  destruct Hgi as [Hgi | Hgi].
  - left. destruct (get_creates_None_Ok self Hwf) as (Q & HQ & Hrun).
    + intros g ivs Hin. rewrite Hgi in Hin. destruct Hin.
    + exists Q. split; [now left|]. now split.
  - destruct Hlen as [Hlen | [Hlen | Hlen]].
    + right. left. split; [exact Hgi|].
      split; [now apply length_zero_iff_nil|].
      apply (get_creates_None_Raise self Hwf Hgi).
      intros g ivs _. apply union_of_empty. now rewrite length_map.
    + left. destruct (get_creates_None_Ok self Hwf) as (Q & HQ & Hrun).
      * intros g ivs _. apply union_of_short. now rewrite length_map.
      * exists Q. split; [now right|]. now split.
    + right. right. split; [exact Hgi|]. split; [exact Hlen|].
      apply (get_creates_None_Raise self Hwf Hgi).
      intros g ivs _. apply union_of_long. now rewrite length_map.
Qed.






Lemma append_assoc (s t u : string) : (s ++ t) ++ u = s ++ t ++ u.
Proof. induction s as [|c s IH]; simpl; [reflexivity|]. now rewrite IH. Qed.

Lemma append_empty_r (s : string) : s ++ "" = s.
Proof. induction s as [|c s IH]; simpl; [reflexivity|]. now rewrite IH. Qed.

Lemma join_empty_cons (x : string) (l : list string) :
  join "" (x :: l) = x ++ join "" l.
Proof. destruct l; simpl; [now rewrite append_empty_r | reflexivity]. Qed.

Lemma left_joins_run (self : SpacetimeAggregation) :
  forall (l : list string) (query : string),
    foldM (fun query group =>
             n <- _get_table_name group ;;
             ret (query ++ "LEFT JOIN " ++ n ++ " USING (" ++ group
                        ++ ", date)"))
          l query self
    = (Ok (query
           ++ join "" (map (fun group =>
                              "LEFT JOIN " ++ table_name self group
                                ++ " USING (" ++ group ++ ", date)") l)),
       self).
Proof.
  induction l as [|g l IH]; intros query.
  - simpl. now rewrite append_empty_r.
  - cbn [foldM map]. rewrite join_empty_cons.
    rewrite (bind_Ok _ _ (a := query ++ "LEFT JOIN " ++ table_name self g
                                 ++ " USING (" ++ g ++ ", date)"))
      by reflexivity.
    rewrite IH. now rewrite append_assoc.
Qed.

Lemma map_flat_map {A B D : Type} (f : B -> D) (g : A -> list B)
  (l : list A) :
  map f (flat_map g l) = flat_map (fun x => map f (g x)) l.
Proof.
  induction l as [|x l IH]; simpl; [reflexivity|].
  now rewrite map_app, IH.
Qed.

(** ** Windows, statements and tables *)

(** C2. For every interval and reference date, _get_aggregates_sql passes
    no filter predicate to the aggregates when the interval is "all", so
    that every column is an unconditional f(q); otherwise the predicate is
    '<date>' <= <date_column> + interval '<interval>'; in both cases the
    column-name prefix is <plan prefix>_<group>_<interval without
    spaces>_. *)
Theorem get_aggregates_sql_window (self : SpacetimeAggregation)
  (interval date group : string) :
  let window_prefix :=
    prefix self ++ "_" ++ group ++ "_" ++ replace space "" interval ++ "_" in
  let predicate :=
    "'" ++ date ++ "' <= " ++ date_column self ++ " + interval '"
        ++ interval ++ "'" in
  contains space (replace space "" interval) = false /\
  (interval = "all" ->
   _get_aggregates_sql interval date group self
   = (Ok (flat_map (fun a => get_columns a None (Some window_prefix))
                   (aggregates self)), self) /\
   forall c, In c (aggregates_sql self interval date group) ->
     exists f q, ex.literal_text (ex.element c) = f ++ "(" ++ q ++ ")") /\
  (interval <> "all" ->
   _get_aggregates_sql interval date group self
   = (Ok (flat_map (fun a => get_columns a (Some predicate)
                                         (Some window_prefix))
                   (aggregates self)), self)).
Proof.
  intros window_prefix predicate.
  split; [apply contains_replace|]. split.
  - intros ->. split; [apply get_aggregates_sql_run|].
    intros c Hc. unfold aggregates_sql in Hc. apply in_flat_map in Hc.
    destruct Hc as (a & _ & Hc). apply in_get_columns in Hc.
    destruct Hc as (f & q & n & j & _ & _ & _ & ->).
    now exists f, q.
  - intros Hne. rewrite get_aggregates_sql_run.
    unfold aggregates_sql, when_of. apply String.eqb_neq in Hne.
    now rewrite Hne.
Qed.

(** C3. For every group key and every reference date get_selects produces
    exactly one SELECT: the list of a group has one statement per date, in
    the order of the dates, and the statement of a date selects the raw
    group key, the date literal cast to date and labeled date, then the
    aggregate columns of every Aggregate for every interval of the group,
    FROM the plan's source, WHERE date_column < '<date>', GROUP BY the raw
    group key. *)
Theorem get_selects_statements (self : SpacetimeAggregation) :
  wf (group_intervals self) ->
  exists selects,
    get_selects self = (Ok selects, self) /\
    forall group intervals,
      In (group, intervals) (group_intervals self) ->
      exists sels,
        getitem group selects = Ok sels /\
        length sels = length (dates self) /\
        forall i date,
          nth_error (dates self) i = Some date ->
          nth_error sels i =
            Some (ex.mkSelect
                    (ex.col_str group
                     :: ex.col_label
                          (ex.label
                             (ex.literal_column ("'" ++ date ++ "'::date"))
                             "date")
                     :: map ex.col_label
                          (flat_map
                             (fun interval =>
                                flat_map
                                  (fun a =>
                                     get_columns a
                                       (if interval =? "all" then None
                                        else Some ("'" ++ date ++ "' <= "
                                                       ++ date_column self
                                                       ++ " + interval '"
                                                       ++ interval ++ "'"))
                                       (Some (prefix self ++ "_" ++ group
                                                ++ "_"
                                                ++ replace space "" interval
                                                ++ "_")))
                                  (aggregates self))
                             intervals))
                    (from_obj self)
                    [ex.text (date_column self ++ " < '" ++ date ++ "'")]
                    [ex.col_literal (ex.literal_column group)]).
Proof.
  intros Hwf. eexists. split; [apply (get_selects_run self Hwf)|].
  intros group intervals Hin.
  exists (map (select_at self group intervals) (dates self)).
  split; [|split].
  - apply getitem_In.
    + unfold wf.
      now rewrite (keys_map_values
                     (fun g ivs => map (select_at self g ivs) (dates self))).
    + apply in_map_iff. now exists (group, intervals).
  - apply length_map.
  - intros i date Hi. rewrite nth_error_map, Hi. reflexivity.
Qed.

(** C8. For a fixed group the per-date SELECTs of get_selects are all
    instances of one template, a list of column shapes that does not depend
    on the date: they differ only where the reference date is written (the
    date column, the window predicates and the WHERE cutoff), and have the
    same column names in the same order, the same FROM and the same
    GROUP BY. *)
Theorem get_selects_share_columns (self : SpacetimeAggregation) :
  wf (group_intervals self) ->
  exists selects,
    get_selects self = (Ok selects, self) /\
    forall group intervals,
      In (group, intervals) (group_intervals self) ->
      exists sels shapes,
        getitem group selects = Ok sels /\
        (forall i date,
            nth_error (dates self) i = Some date ->
            nth_error sels i = Some (dated_select self group shapes date)) /\
        (forall s, In s sels ->
            exists date, In date (dates self) /\
                         s = dated_select self group shapes date) /\
        forall s1 s2,
          In s1 sels -> In s2 sels ->
          map column_name (ex.columns s1) = map column_name (ex.columns s2) /\
          ex.from_obj s1 = ex.from_obj s2 /\
          ex.group_by_clause s1 = ex.group_by_clause s2.
Proof.
  intros Hwf. eexists. split; [apply (get_selects_run self Hwf)|].
  intros group intervals Hin.
  set (shapes :=
         flat_map
           (fun interval =>
              flat_map
                (fun a =>
                   map (fun '(f, (q, n)) =>
                          (f, q,
                           if interval =? "all" then None else Some interval,
                           to_sql_name
                             (name_template (prefix_of self interval group)
                                            n f)))
                       (product (functions a)
                                (zip (quantities a) (quantity_names a))))
                (aggregates self))
           intervals : list shape).
  assert (Hsel : forall date,
             select_at self group intervals date
             = dated_select self group shapes date).
  { intros date. unfold select_at, dated_select. do 3 f_equal.
    unfold shapes. rewrite !map_flat_map. apply flat_map_ext. intros interval.
    unfold aggregates_sql. rewrite !map_flat_map. apply flat_map_ext.
    intros a. unfold get_columns. rewrite !map_map. apply map_ext.
    intros [f [q n]]. unfold when_of. simpl.
    now destruct (interval =? "all"). }
  exists (map (select_at self group intervals) (dates self)), shapes.
  split; [|split; [|split]].
  - apply getitem_In.
    + unfold wf.
      now rewrite (keys_map_values
                     (fun g ivs => map (select_at self g ivs) (dates self))).
    + apply in_map_iff. now exists (group, intervals).
  - intros i date Hi. rewrite nth_error_map, Hi. simpl. now rewrite Hsel.
  - intros s Hs. apply in_map_iff in Hs. destruct Hs as (date & <- & Hd).
    exists date. now rewrite Hsel.
  - intros s1 s2 H1 H2. apply in_map_iff in H1. apply in_map_iff in H2.
    destruct H1 as (d1 & <- & _). destruct H2 as (d2 & <- & _).
    rewrite !Hsel. simpl. repeat split. do 2 f_equal.
    rewrite !map_map. apply map_ext. now intros [[[f q] w] l].
Qed.

(** C4. get_creates without a selects argument folds the per-date SELECTs
    of each group with union_all and wraps the result in a CREATE TABLE ...
    AS named by the prefix, an underscore and the group, quote characters
    stripped and the whole quoted.  The fold combines exactly the k
    SELECTs, by UNION ALL and nothing else, only for k = 1 (the SELECT
    itself) and k = 2 (one UNION ALL): for k >= 3 its second step calls
    union_all on the compound statement built by the first and get_creates
    raises AttributeError, and for k = 0 it raises the TypeError of
    reduce, so that no statement is produced. *)
Theorem get_creates_union_all (self : SpacetimeAggregation) :
  wf (group_intervals self) ->
  (length (dates self) = 1 \/ length (dates self) = 2 ->
   exists selects creates,
     get_selects self = (Ok selects, self) /\
     get_creates None self = (Ok creates, self) /\
     keys creates = keys selects /\
     forall group sels,
       In (group, sels) selects ->
       length sels = length (dates self) /\
       exists c,
         getitem group creates = Ok c /\
         name c = String dquote (to_sql_name (prefix self ++ "_" ++ group))
                    ++ String dquote "" /\
         leaves (query c) = sels /\
         only_union_all (query c) = true /\
         (forall only, sels = [only] -> query c = ex.select_stmt only) /\
         (forall first second,
             sels = [first; second] ->
             query c = ex.CompoundSelect ex.UNION_ALL (ex.select_stmt first)
                                         (ex.select_stmt second)) /\
         forall compiler,
           _create_table_as c compiler
           = "CREATE TABLE " ++ name c ++ " AS " ++ compiler (query c)) /\
  (group_intervals self <> [] -> 3 <= length (dates self) ->
   exists msg, get_creates None self = (Raise (AttributeError msg), self)) /\
  (group_intervals self <> [] -> dates self = [] ->
   exists msg, get_creates None self = (Raise (TypeError msg), self)).
Proof.
  intros Hwf. split; [|split].
  - intros Hlen.
    destruct (get_creates_None_Ok self Hwf) as (Q & HQ & Hrun).
    { intros g ivs _. apply union_of_short. now rewrite length_map. }
    eexists. eexists.
    split; [apply (get_selects_run self Hwf)|].
    split; [exact Hrun|]. split.
    { rewrite (keys_map_values
                 (fun g ivs => mkCreateTableAs (table_name self g) (Q g ivs))).
      now rewrite (keys_map_values
                     (fun g ivs => map (select_at self g ivs) (dates self))). }
    intros group sels Hin. apply in_map_iff in Hin.
    destruct Hin as ([g ivs] & Heq & Hin). injection Heq as <- <-.
    split; [apply length_map|].
    exists (mkCreateTableAs (table_name self g) (Q g ivs)).
    destruct (union_of_Ok _ (HQ g ivs Hin))
      as (_ & Hleaves & Honly & Hone & Htwo).
    split.
    { apply getitem_In.
      - unfold wf.
        now rewrite (keys_map_values
                       (fun g ivs =>
                          mkCreateTableAs (table_name self g) (Q g ivs))).
      - apply in_map_iff. exists (g, ivs). split; [reflexivity | exact Hin]. }
    simpl. repeat split; auto.
  - intros Hgi Hlen.
    destruct (get_creates_None_cases self Hwf)
      as [(Q & Hcond & _ & _) | [(_ & Hd & _) | (_ & _ & Hrun)]].
    + destruct Hcond as [H | [H | H]]; [contradiction | lia | lia].
    + rewrite Hd in Hlen. simpl in Hlen. lia.
    + eexists. exact Hrun.
  - intros Hgi Hd.
    destruct (get_creates_None_cases self Hwf)
      as [(Q & Hcond & _ & _) | [(_ & _ & Hrun) | (_ & Hlen & _)]].
    + rewrite Hd in Hcond. simpl in Hcond.
      destruct Hcond as [H | [H | H]]; [contradiction | lia | lia].
    + eexists. exact Hrun.
    + rewrite Hd in Hlen. simpl in Hlen. lia.
Qed.

(** C5. Without a join_table override get_create selects the group keys
    FROM the source GROUP BY the group keys as relation t1, cross-joins it
    with the reference dates unnested from a literal array as a column
    named date, LEFT JOINs the table of each group USING (group, date), and
    wraps the query in CREATE TABLE <prefix>_<suffix> AS (...). *)
Theorem get_create_final_table (self : SpacetimeAggregation) :
  get_create None self
  = (Ok ("CREATE TABLE " ++ prefix self ++ "_" ++ suffix self ++ " AS ("
           ++ "SELECT * FROM ("
           ++ str_select
                (ex.mkSelect (map ex.col_str (groups self)) (from_obj self) []
                             (map ex.col_str (groups self)))
           ++ ") t1" ++ newline
           ++ "CROSS JOIN (select unnest('{" ++ join "," (dates self)
           ++ "}'::date[]) as date) t2" ++ newline
           ++ join "" (map (fun group =>
                              "LEFT JOIN "
                                ++ (String dquote
                                      (to_sql_name
                                         (prefix self ++ "_" ++ group))
                                    ++ String dquote "")
                                ++ " USING (" ++ group ++ ", date)")
                           (groups self))
           ++ ");"), self).
Proof.
  unfold get_create. cbn [truthy negb].
  erewrite bind_Ok by reflexivity.
  rewrite (bind_Ok _ _ (a := prefix self)) by reflexivity.
  rewrite (bind_Ok _ _ (a := suffix self)) by reflexivity.
  rewrite (bind_Ok _ _ (a := dates self)) by reflexivity.
  rewrite (bind_Ok _ _ (a := groups self)) by reflexivity.
  rewrite (bind_Ok _ _ (left_joins_run self _ _)).
  unfold ret, table_name. repeat rewrite append_assoc. reflexivity.
Qed.

Lemma get_create_run (self : SpacetimeAggregation)
  (join_table : option string) :
  get_create join_table self
  = (Ok ("CREATE TABLE " ++ prefix self ++ "_" ++ suffix self ++ " AS ("
           ++ "SELECT * FROM "
           ++ (if truthy join_table
               then match join_table with Some j => j | None => "" end
               else "("
                    ++ str_select
                         (ex.mkSelect (map ex.col_str (groups self))
                                      (from_obj self) []
                                      (map ex.col_str (groups self)))
                    ++ ") t1")
           ++ newline
           ++ "CROSS JOIN (select unnest('{" ++ join "," (dates self)
           ++ "}'::date[]) as date) t2" ++ newline
           ++ join "" (map (fun group =>
                              "LEFT JOIN " ++ table_name self group
                                ++ " USING (" ++ group ++ ", date)")
                           (groups self))
           ++ ");"), self).
Proof.
  unfold get_create. destruct (truthy join_table); cbn [negb].
  - rewrite (bind_Ok _ _ (a := match join_table with
                               | Some j => j
                               | None => ""
                               end)) by reflexivity.
    rewrite (bind_Ok _ _ (a := prefix self)) by reflexivity.
    rewrite (bind_Ok _ _ (a := suffix self)) by reflexivity.
    rewrite (bind_Ok _ _ (a := dates self)) by reflexivity.
    rewrite (bind_Ok _ _ (a := groups self)) by reflexivity.
    rewrite (bind_Ok _ _ (left_joins_run self _ _)).
    unfold ret. repeat rewrite append_assoc. reflexivity.
  - erewrite bind_Ok by reflexivity.
    rewrite (bind_Ok _ _ (a := prefix self)) by reflexivity.
    rewrite (bind_Ok _ _ (a := suffix self)) by reflexivity.
    rewrite (bind_Ok _ _ (a := dates self)) by reflexivity.
    rewrite (bind_Ok _ _ (a := groups self)) by reflexivity.
    rewrite (bind_Ok _ _ (left_joins_run self _ _)).
    unfold ret. repeat rewrite append_assoc. reflexivity.
Qed.

(** C7 (as amended). The table name of a group is rendered by one rule
    wherever it appears (get_creates, get_drops, get_indexes and the LEFT
    JOINs of get_create): the quote characters of <prefix>_<group> are
    stripped and the result is put between quotes.  A column label has its
    quote characters stripped.  The final table name <prefix>_<suffix> of
    get_create and of get_drop, and the columns of an index and of a LEFT
    JOIN, are written as they are given. *)
Theorem identifiers_rendering (self : SpacetimeAggregation) :
  (forall identifier,
      sanitized identifier
      = String dquote (replace dquote "" identifier) ++ String dquote "" /\
      contains dquote (replace dquote "" identifier) = false) /\
  (forall group,
      _get_table_name group self
      = (Ok (sanitized (prefix self ++ "_" ++ group)), self)) /\
  (wf (group_intervals self) ->
   get_drops self
   = (Ok (map (fun group =>
                 (group, "DROP TABLE IF EXISTS "
                           ++ sanitized (prefix self ++ "_" ++ group) ++ ";"))
              (groups self)), self) /\
   get_indexes self
   = (Ok (map (fun group =>
                 (group, "CREATE INDEX ON "
                           ++ sanitized (prefix self ++ "_" ++ group)
                           ++ " (" ++ group ++ ", date);"))
              (groups self)), self) /\
   forall creates,
     get_creates None self = (Ok creates, self) ->
     forall group c,
       In (group, c) creates ->
       name c = sanitized (prefix self ++ "_" ++ group)) /\
  (forall (a : Aggregate) when prefix c,
      In c (get_columns a when prefix) ->
      contains dquote (ex.name c) = false /\
      exists f n,
        ex.name c
        = replace dquote ""
            (match prefix with Some p => p | None => "" end
               ++ n ++ "_" ++ f)) /\
  get_drop self
  = (Ok ("DROP TABLE IF EXISTS " ++ prefix self ++ "_" ++ suffix self), self) /\
  (forall join_table,
      exists relation,
        get_create join_table self
        = (Ok ("CREATE TABLE " ++ prefix self ++ "_" ++ suffix self ++ " AS ("
                 ++ "SELECT * FROM " ++ relation ++ newline
                 ++ "CROSS JOIN (select unnest('{" ++ join "," (dates self)
                 ++ "}'::date[]) as date) t2" ++ newline
                 ++ join "" (map (fun group =>
                                    "LEFT JOIN "
                                      ++ sanitized
                                           (prefix self ++ "_" ++ group)
                                      ++ " USING (" ++ group ++ ", date)")
                                 (groups self))
                 ++ ");"), self)).
Proof.
  split; [|split; [|split; [|split; [|split]]]].
  - intros identifier. split; [reflexivity | apply contains_replace].
  - reflexivity.
  - intros Hwf. split; [apply (get_drops_run self Hwf)|].
    split; [apply (get_indexes_run self Hwf)|].
    intros creates Hcreates group c Hin.
    destruct (get_creates_None_cases self Hwf)
      as [(Q & _ & _ & Hrun) | [(_ & _ & Hrun) | (_ & _ & Hrun)]];
      rewrite Hrun in Hcreates; try discriminate Hcreates.
    injection Hcreates as <-. apply in_map_iff in Hin.
    destruct Hin as ([g ivs] & Heq & _). now injection Heq as <- <-.
  - intros a when prefix c Hc. apply in_get_columns in Hc.
    destruct Hc as (f & q & n & j & _ & _ & _ & ->).
    split; [apply to_sql_name_clean|]. now exists f, n.
  - reflexivity.
  - intros join_table. eexists. apply get_create_run.
Qed.

(** C10. For a plan whose group_intervals has distinct keys, get_selects,
    get_drops and get_indexes return a dictionary with exactly the keys of
    group_intervals, in the same order, and none of the four calls changes
    the plan, whatever it returns.  get_creates without a selects argument
    returns such a dictionary only when the plan has no group or has one
    or two reference dates: with a group and three or more reference dates
    it raises AttributeError, and with a group and no reference date it
    raises TypeError, and returns no dictionary. *)
Theorem group_keys_preserved (self : SpacetimeAggregation) :
  wf (group_intervals self) ->
  (exists selects, fst (get_selects self) = Ok selects /\
                   keys selects = keys (group_intervals self)) /\
  (exists drops, fst (get_drops self) = Ok drops /\
                 keys drops = keys (group_intervals self)) /\
  (exists indexes, fst (get_indexes self) = Ok indexes /\
                   keys indexes = keys (group_intervals self)) /\
  (group_intervals self = [] \/ length (dates self) = 1
   \/ length (dates self) = 2 ->
   exists creates, fst (get_creates None self) = Ok creates /\
                   keys creates = keys (group_intervals self)) /\
  (group_intervals self <> [] -> 3 <= length (dates self) ->
   exists msg, fst (get_creates None self) = Raise (AttributeError msg)) /\
  (group_intervals self <> [] -> dates self = [] ->
   exists msg, fst (get_creates None self) = Raise (TypeError msg)) /\
  snd (get_selects self) = self /\
  snd (get_creates None self) = self /\
  snd (get_drops self) = self /\
  snd (get_indexes self) = self.
Proof.
  intros Hwf.
  split; [|split; [|split; [|split; [|split; [|split]]]]].
  - eexists. rewrite (get_selects_run self Hwf). split; [reflexivity|].
    apply (keys_map_values
             (fun g ivs => map (select_at self g ivs) (dates self))).
  - eexists. rewrite (get_drops_run self Hwf). split; [reflexivity|].
    unfold keys, groups. rewrite map_map. apply map_id.
  - eexists. rewrite (get_indexes_run self Hwf). split; [reflexivity|].
    unfold keys, groups. rewrite map_map. apply map_id.
  - intros Hcond.
    destruct (get_creates_None_cases self Hwf)
      as [(Q & _ & _ & Hrun) | [(Hgi & Hd & _) | (Hgi & Hlen & _)]].
    + eexists. rewrite Hrun. split; [reflexivity|].
      apply (keys_map_values
               (fun g ivs => mkCreateTableAs (table_name self g) (Q g ivs))).
    + rewrite Hd in Hcond. simpl in Hcond.
      destruct Hcond as [H | [H | H]]; [contradiction | lia | lia].
    + destruct Hcond as [H | [H | H]]; [contradiction | lia | lia].
  - intros Hgi Hlen.
    destruct (get_creates_None_cases self Hwf)
      as [(Q & Hcond & _ & _) | [(_ & Hd & _) | (_ & _ & Hrun)]].
    + destruct Hcond as [H | [H | H]]; [contradiction | lia | lia].
    + rewrite Hd in Hlen. simpl in Hlen. lia.
    + eexists. now rewrite Hrun.
  - intros Hgi Hd.
    destruct (get_creates_None_cases self Hwf)
      as [(Q & Hcond & _ & _) | [(_ & _ & Hrun) | (_ & Hlen & _)]].
    + rewrite Hd in Hcond. simpl in Hcond.
      destruct Hcond as [H | [H | H]]; [contradiction | lia | lia].
    + eexists. now rewrite Hrun.
    + rewrite Hd in Hlen. simpl in Hlen. lia.
  - repeat split.
    + apply readonly_get_selects.
    + apply readonly_get_creates.
    + apply readonly_get_drops.
    + apply readonly_get_indexes.
Qed.

(** ** Further properties of the names *)

Lemma replace_append (c : ascii) (s t : string) :
  replace c "" (s ++ t) = replace c "" s ++ replace c "" t.
Proof.
  induction s as [|c' s IH]; simpl; [reflexivity|].
  destruct (Ascii.eqb c' c); simpl; now rewrite IH.
Qed.

Lemma replace_idempotent (c : ascii) (s : string) :
  replace c "" (replace c "" s) = replace c "" s.
Proof. apply replace_absent, contains_replace. Qed.

Lemma length_replace (c : ascii) (s : string) :
  String.length (replace c "" s) <= String.length s.
Proof.
  induction s as [|c' s IH]; simpl; [lia|].
  destruct (Ascii.eqb c' c); simpl; lia.
Qed.

Lemma append_cancel_l (s t u : string) : s ++ t = s ++ u -> t = u.
Proof.
  induction s as [|c s IH]; simpl; [trivial|].
  intros H. injection H as H. now apply IH.
Qed.

Lemma append_cancel_last (c : ascii) :
  forall s t, s ++ String c "" = t ++ String c "" -> s = t.
Proof.
  induction s as [|a s IH]; intros [|b t]; simpl; intros H.
  - reflexivity.
  - injection H as _ H. destruct t; discriminate H.
  - injection H as _ H. destruct s; discriminate H.
  - injection H as -> H. f_equal. now apply IH.
Qed.

(** X1. to_sql_name leaves no quote character, is idempotent, never
    lengthens a name, changes exactly the names that hold a quote
    character, and distributes over concatenation. *)
Theorem to_sql_name_strips (s t : string) :
  contains dquote (to_sql_name s) = false /\
  to_sql_name (to_sql_name s) = to_sql_name s /\
  String.length (to_sql_name s) <= String.length s /\
  (to_sql_name s = s <-> contains dquote s = false) /\
  to_sql_name (s ++ t) = to_sql_name s ++ to_sql_name t.
Proof.
  unfold to_sql_name. split; [apply contains_replace|].
  split; [apply replace_idempotent|]. split; [apply length_replace|].
  split; [|apply replace_append]. split.
  - intros H. rewrite <- H. apply contains_replace.
  - apply replace_absent.
Qed.

Lemma to_sql_name_template (prefix n f : string) :
  to_sql_name (name_template prefix n f)
  = to_sql_name prefix ++ to_sql_name n ++ "_" ++ to_sql_name f.
Proof.
  unfold name_template, to_sql_name. now rewrite !replace_append.
Qed.

(** X2. The labels of the columns of get_columns, in order, are the
    stripped prefix, the stripped quantity name, an underscore and the
    stripped function, for every function and every quantity/name pair:
    stripping the whole label is stripping each of its parts. *)
Theorem get_columns_label_parts (a : Aggregate) (when prefix : option string) :
  map ex.name (get_columns a when prefix)
  = map (fun '(f, (q, n)) =>
           to_sql_name (match prefix with Some p => p | None => "" end)
             ++ to_sql_name n ++ "_" ++ to_sql_name f)
        (product (functions a) (zip (quantities a) (quantity_names a))).
Proof.
  unfold get_columns. rewrite map_map. apply map_ext.
  intros [f [q n]]. simpl. apply to_sql_name_template.
Qed.

Lemma zip_map_r {A B : Type} (h : A -> B) (l : list A) :
  zip l (map h l) = map (fun x => (x, h x)) l.
Proof.
  unfold zip. induction l as [|x l IH]; simpl; [reflexivity|].
  now rewrite IH.
Qed.

Lemma map_product_map_r {A B D E : Type} (g : A * D -> E) (k : B -> D)
  (xs : list A) (ys : list B) :
  map g (product xs (map k ys))
  = map (fun '(x, y) => g (x, k y)) (product xs ys).
Proof.
  unfold product. rewrite !map_flat_map. apply flat_map_ext. intros x.
  now rewrite !map_map.
Qed.

(** X3. Omitting the names of an Aggregate gives the same columns, texts
    and labels, as passing the quantities themselves as names: the default
    names are the stripped quantities, and the label is stripped again. *)
Theorem default_names_are_quantities (quantity function : arg)
  (when prefix : option string) :
  Aggregate_columns quantity function None when prefix
  = Aggregate_columns quantity function (Some quantity) when prefix.
Proof.
  unfold Aggregate_columns, Aggregate_init.
  rewrite Nat.eqb_refl. simpl. f_equal. unfold get_columns. simpl.
  rewrite zip_map_r.
  rewrite <- (map_id (make_list quantity)) at 3. rewrite zip_map_r.
  rewrite !map_product_map_r. apply map_ext. intros [f q]. f_equal.
  rewrite !to_sql_name_template. f_equal. f_equal.
  apply replace_idempotent.
Qed.

Lemma length_get_columns (a : Aggregate) (when prefix : option string) :
  length (get_columns a when prefix)
  = length (functions a)
    * Nat.min (length (quantities a)) (length (quantity_names a)).
Proof.
  unfold get_columns. rewrite length_map, length_product.
  unfold zip. now rewrite length_combine.
Qed.

(** X4. Whatever the predicate and the prefix, get_columns yields as many
    columns as there are functions times quantity/name pairs, the pairs
    being cut at the shorter of the two lists; it yields none exactly when
    the Aggregate has no function, no quantity or no name. *)
Theorem get_columns_count (a : Aggregate) (when prefix : option string) :
  length (get_columns a when prefix)
  = length (functions a)
    * Nat.min (length (quantities a)) (length (quantity_names a)) /\
  (get_columns a when prefix = [] <->
   functions a = [] \/ quantities a = [] \/ quantity_names a = []).
Proof.
  pose proof (length_get_columns a when prefix) as Hlen.
  split; [exact Hlen|]. split.
  - intros H. rewrite H in Hlen. simpl in Hlen. symmetry in Hlen.
    apply Nat.eq_mul_0 in Hlen. destruct Hlen as [Hf | Hm].
    + left. now apply length_zero_iff_nil.
    + right.
      destruct (quantities a); [now left|].
      destruct (quantity_names a); [now right|]. discriminate Hm.
  - intros H. apply length_zero_iff_nil. rewrite Hlen.
    destruct H as [-> | [-> | ->]]; simpl; lia.
Qed.

(** X5. Two groups get the same table name exactly when they are equal
    once their quote characters are removed: the table names of a plan are
    pairwise distinct if and only if the stripped group keys are. *)
Theorem table_name_collision (self : SpacetimeAggregation)
  (group1 group2 : string) :
  fst (_get_table_name group1 self) = fst (_get_table_name group2 self) <->
  to_sql_name group1 = to_sql_name group2.
Proof.
  rewrite !get_table_name_run. simpl. unfold table_name, to_sql_name.
  rewrite !replace_append. split.
  - intros H. injection H as H. apply append_cancel_last in H.
    apply append_cancel_l in H. now injection H.
  - now intros ->.
Qed.

(** X6. The column names produced for an interval depend on the interval
    only through its text without spaces, and not on the date: two
    intervals that differ only in spaces give the same column names, in
    the same order. *)
Theorem interval_names_modulo_spaces (self : SpacetimeAggregation)
  (interval1 interval2 date1 date2 group : string) :
  replace space "" interval1 = replace space "" interval2 ->
  exists columns1 columns2,
    _get_aggregates_sql interval1 date1 group self = (Ok columns1, self) /\
    _get_aggregates_sql interval2 date2 group self = (Ok columns2, self) /\
    map ex.name columns1 = map ex.name columns2.
Proof.
  intros H. eexists. eexists.
  split; [apply get_aggregates_sql_run|].
  split; [apply get_aggregates_sql_run|].
  unfold aggregates_sql, prefix_of. rewrite H, !map_flat_map.
  apply flat_map_ext. intros a. unfold get_columns. rewrite !map_map.
  apply map_ext. now intros [f [q n]].
Qed.

(** ** Further properties of the statements *)

Lemma length_flat_map_sum {A B : Type} (f : A -> list B) (l : list A) :
  length (flat_map f l) = list_sum (map (fun x => length (f x)) l).
Proof.
  induction l as [|x l IH]; simpl; [reflexivity|].
  now rewrite length_app, IH.
Qed.

Lemma list_sum_const {A : Type} (c : nat) (l : list A) :
  list_sum (map (fun _ => c) l) = length l * c.
Proof. induction l as [|x l IH]; simpl; [reflexivity|]. now rewrite IH. Qed.

(** X7. Every SELECT of get_selects for a group has two columns (the group
    key and the date) plus, for each interval of the group, as many
    columns as all the Aggregates yield together. *)
Theorem get_selects_column_count (self : SpacetimeAggregation) :
  wf (group_intervals self) ->
  exists selects,
    get_selects self = (Ok selects, self) /\
    forall group sels s,
      In (group, sels) selects -> In s sels ->
      exists intervals,
        In (group, intervals) (group_intervals self) /\
        length (ex.columns s)
        = 2 + length intervals
              * list_sum
                  (map (fun a =>
                          length (functions a)
                          * Nat.min (length (quantities a))
                                    (length (quantity_names a)))
                       (aggregates self)).
Proof.
  intros Hwf. eexists. split; [apply (get_selects_run self Hwf)|].
  intros group sels s Hin Hs. apply in_map_iff in Hin.
  destruct Hin as ([g ivs] & Heq & Hin). injection Heq as <- <-.
  apply in_map_iff in Hs. destruct Hs as (date & <- & _).
  exists ivs. split; [exact Hin|]. simpl. do 2 f_equal.
  rewrite length_map, length_flat_map_sum.
  rewrite <- list_sum_const. f_equal. apply map_ext. intros interval.
  unfold aggregates_sql. rewrite length_flat_map_sum. f_equal.
  apply map_ext. intros a. apply length_get_columns.
Qed.

(** X8. On a plan whose group_intervals has distinct keys, get_creates
    without a selects argument raises TypeError exactly when the plan has a
    group and no reference date, raises AttributeError exactly when it has
    a group and three or more reference dates, and returns its dictionary
    exactly when the plan has no group or has one or two reference
    dates. *)
Theorem get_creates_raises (self : SpacetimeAggregation) :
  wf (group_intervals self) ->
  ((exists msg, fst (get_creates None self) = Raise (TypeError msg)) <->
   dates self = [] /\ group_intervals self <> []) /\
  ((exists msg, fst (get_creates None self) = Raise (AttributeError msg)) <->
   3 <= length (dates self) /\ group_intervals self <> []) /\
  ((exists creates, fst (get_creates None self) = Ok creates) <->
   group_intervals self = [] \/ length (dates self) = 1
   \/ length (dates self) = 2).
Proof.
  intros Hwf.
  destruct (get_creates_None_cases self Hwf)
    as [(Q & Hcond & _ & Hrun) | [(Hgi & Hd & Hrun) | (Hgi & Hlen & Hrun)]];
    rewrite Hrun; simpl.
  - split; [|split]; split.
    + intros (msg & H). discriminate H.
    + intros [Hd Hgi]. rewrite Hd in Hcond. simpl in Hcond.
      destruct Hcond as [H | [H | H]]; [contradiction | lia | lia].
    + intros (msg & H). discriminate H.
    + intros [Hlen Hgi].
      destruct Hcond as [H | [H | H]]; [contradiction | lia | lia].
    + intros _. exact Hcond.
    + intros _. eexists. reflexivity.
  - split; [|split]; split.
    + intros _. now split.
    + intros _. eexists. reflexivity.
    + intros (msg & H). discriminate H.
    + intros [Hlen _]. rewrite Hd in Hlen. simpl in Hlen. lia.
    + intros (creates & H). discriminate H.
    + rewrite Hd. simpl.
      intros [H | [H | H]]; [contradiction | lia | lia].
  - split; [|split]; split.
    + intros (msg & H). discriminate H.
    + intros [Hd _]. rewrite Hd in Hlen. simpl in Hlen. lia.
    + intros _. now split.
    + intros _. eexists. reflexivity.
    + intros (creates & H). discriminate H.
    + intros [H | [H | H]]; [contradiction | lia | lia].
Qed.



(** X11. An empty join_table override counts as none.  A non-empty one is
    written as it is after SELECT * FROM, in place of the
    group-combinations subquery; the rest of the statement is the same. *)
Theorem get_create_override (self : SpacetimeAggregation)
  (join_table : string) :
  get_create (Some "") self = get_create None self /\
  (join_table <> "" ->
   get_create (Some join_table) self
   = (Ok ("CREATE TABLE " ++ prefix self ++ "_" ++ suffix self ++ " AS ("
            ++ "SELECT * FROM " ++ join_table ++ newline
            ++ "CROSS JOIN (select unnest('{" ++ join "," (dates self)
            ++ "}'::date[]) as date) t2" ++ newline
            ++ join "" (map (fun group =>
                               "LEFT JOIN "
                                 ++ (String dquote
                                       (to_sql_name
                                          (prefix self ++ "_" ++ group))
                                     ++ String dquote "")
                                 ++ " USING (" ++ group ++ ", date)")
                            (groups self))
            ++ ");"), self)).
Proof.
  split; [reflexivity|]. intros Hne. unfold get_create.
  assert (Htruthy : truthy (Some join_table) = true).
  { simpl. apply String.eqb_neq in Hne. now rewrite Hne. }
  rewrite Htruthy. cbn [negb].
  rewrite (bind_Ok _ _ (a := join_table)) by reflexivity.
  rewrite (bind_Ok _ _ (a := prefix self)) by reflexivity.
  rewrite (bind_Ok _ _ (a := suffix self)) by reflexivity.
  rewrite (bind_Ok _ _ (a := dates self)) by reflexivity.
  rewrite (bind_Ok _ _ (a := groups self)) by reflexivity.
  rewrite (bind_Ok _ _ (left_joins_run self _ _)).
  unfold ret, table_name. repeat rewrite append_assoc. reflexivity.
Qed.

Lemma getitem_missing {V : Type} (k : string) (d : dict V) :
  ~ In k (keys d) -> getitem k d = Raise (KeyError k).
Proof.
  induction d as [|[k0 v0] d IH]; simpl; intros Hk; [reflexivity|].
  destruct (String.eqb_spec k0 k) as [->|Hne].
  - exfalso. apply Hk. now left.
  - apply IH. intros Hin. apply Hk. now right.
Qed.

Lemma keys_of_groups {V : Type} (g : string -> V) (l : list string) :
  keys (map (fun k => (k, g k)) l) = l.
Proof. unfold keys. rewrite map_map. apply map_id. Qed.

(** X12. On a plan whose group_intervals has distinct keys, looking a
    group of the plan up in get_drops and get_indexes gives the DROP and
    the CREATE INDEX of one and the same table, the one whose name
    get_creates gives to the CREATE TABLE of that group; looking up a key
    that is no group of the plan raises KeyError. *)
Theorem group_statement_lookup (self : SpacetimeAggregation) :
  wf (group_intervals self) ->
  exists drops indexes,
    get_drops self = (Ok drops, self) /\
    get_indexes self = (Ok indexes, self) /\
    forall group,
      (In group (groups self) ->
       exists table,
         _get_table_name group self = (Ok table, self) /\
         getitem group drops = Ok ("DROP TABLE IF EXISTS " ++ table ++ ";") /\
         getitem group indexes
         = Ok ("CREATE INDEX ON " ++ table ++ " (" ++ group ++ ", date);") /\
         forall creates,
           get_creates None self = (Ok creates, self) ->
           exists c, getitem group creates = Ok c /\ name c = table) /\
      (~ In group (groups self) ->
       getitem group drops = Raise (KeyError group) /\
       getitem group indexes = Raise (KeyError group)).
Proof.
  intros Hwf. eexists. eexists.
  split; [apply (get_drops_run self Hwf)|].
  split; [apply (get_indexes_run self Hwf)|].
  intros group. split.
  - intros Hin. exists (table_name self group).
    split; [reflexivity|]. split; [|split].
    + apply getitem_In.
      * unfold wf. rewrite keys_of_groups. exact Hwf.
      * apply in_map_iff. now exists group.
    + apply getitem_In.
      * unfold wf. rewrite keys_of_groups. exact Hwf.
      * apply in_map_iff. now exists group.
    + intros creates Hcreates.
      unfold groups, keys in Hin. apply in_map_iff in Hin.
      destruct Hin as ([g ivs] & Hg & Hin). simpl in Hg. subst g.
      destruct (get_creates_None_cases self Hwf)
        as [(Q & _ & _ & Hrun) | [(_ & _ & Hrun) | (_ & _ & Hrun)]];
        rewrite Hrun in Hcreates; try discriminate Hcreates.
      injection Hcreates as <-.
      exists (mkCreateTableAs (table_name self group) (Q group ivs)).
      split; [|reflexivity].
      apply getitem_In.
      * unfold wf.
        now rewrite (keys_map_values
                       (fun g ivs =>
                          mkCreateTableAs (table_name self g) (Q g ivs))).
      * apply in_map_iff. exists (group, ivs).
        split; [reflexivity | exact Hin].
  - intros Hnot. split; apply getitem_missing; now rewrite keys_of_groups.
Qed.

(** X13. A plan built by the constructor never has an empty suffix or an
    empty date column, and has an empty prefix only when str(from_obj) is
    empty: an omitted or empty prefix, suffix or date column is replaced by
    str(from_obj), "aggregation" and "date", and a non-empty one is kept.
    A source given as a string becomes the table of that name. *)
Theorem init_fills_defaults (aggregates : list Aggregate)
  (group_intervals : dict (list string))
  (source : string + ex.FromClause ClauseElement) (dates : list string)
  (prefix_arg suffix_arg date_column_arg : option string) :
  let plan :=
    SpacetimeAggregation_init aggregates group_intervals source dates
                              prefix_arg suffix_arg date_column_arg in
  let str_from_obj :=
    match source with inl s => s | inr c => str_clause c end in
  suffix plan <> "" /\
  date_column plan <> "" /\
  (prefix plan = "" -> str_from_obj = "") /\
  (forall p, prefix_arg = Some p -> p <> "" -> prefix plan = p) /\
  (prefix_arg = None \/ prefix_arg = Some "" -> prefix plan = str_from_obj) /\
  (suffix_arg = None \/ suffix_arg = Some "" -> suffix plan = "aggregation") /\
  (date_column_arg = None \/ date_column_arg = Some "" ->
   date_column plan = "date") /\
  (forall s, source = inl s -> from_obj plan = ex.table s) /\
  groups plan = keys group_intervals.
Proof.
  intros plan str_from_obj. subst plan. unfold SpacetimeAggregation_init.
  simpl.
  split; [|split; [|split; [|split; [|split; [|split; [|split; [|split]]]]]]].
  - destruct suffix_arg as [s|]; simpl; [|discriminate].
    destruct (String.eqb_spec s ""); simpl; [discriminate | assumption].
  - destruct date_column_arg as [s|]; simpl; [|discriminate].
    destruct (String.eqb_spec s ""); simpl; [discriminate | assumption].
  - destruct prefix_arg as [p|]; simpl; [|trivial].
    destruct (String.eqb_spec p ""); simpl; [trivial|].
    intros H. contradiction.
  - intros p -> Hp. simpl. apply String.eqb_neq in Hp. now rewrite Hp.
  - intros [-> | ->]; reflexivity.
  - intros [-> | ->]; reflexivity.
  - intros [-> | ->]; reflexivity.
  - intros s ->. reflexivity.
  - reflexivity.
Qed.

End Plan.

(** ** Worked instances *)

Lemma get_columns_cross_product_witness :
  Aggregate_init (PyList ["amount"; "fee"]) (PyTuple ["sum"; "count"; "avg"])
                 None
    = Ok (mkAggregate ["amount"; "fee"] ["sum"; "count"; "avg"]
                      ["amount"; "fee"]) /\
  length (get_columns (mkAggregate ["amount"; "fee"] ["sum"; "count"; "avg"]
                                   ["amount"; "fee"])
                      None (Some "p_")) = 3 * 2.
Proof.
  split; [reflexivity|].
  exact (proj1 (proj2 (proj2 (proj2
    (@get_columns_cross_product
       (PyList ["amount"; "fee"]) (PyTuple ["sum"; "count"; "avg"]) None
       (mkAggregate ["amount"; "fee"] ["sum"; "count"; "avg"]
                    ["amount"; "fee"])
       None (Some "p_") eq_refl))))).
Defined.

Lemma get_selects_statements_witness :
  wf (group_intervals (example_plan Empty_set)) /\
  exists selects,
    get_selects (example_plan Empty_set)
    = (Ok selects, example_plan Empty_set) /\
    exists sels, getitem "id" selects = Ok sels /\ length sels = 2.
Proof.
  assert (H : wf (group_intervals (example_plan Empty_set))).
  { apply NoDup_cons; [simpl; tauto | apply NoDup_nil]. }
  split; [exact H|].
  destruct (get_selects_statements (example_plan Empty_set) H)
    as (selects & Hrun & Hall).
  exists selects. split; [exact Hrun|].
  destruct (Hall "id" ["1 month"; "all"] (or_introl eq_refl))
    as (sels & Hget & Hlen & _).
  exists sels. split; assumption.
Defined.

Lemma get_selects_share_columns_witness :
  wf (group_intervals (example_plan Empty_set)) /\
  exists selects,
    get_selects (example_plan Empty_set)
    = (Ok selects, example_plan Empty_set) /\
    exists sels, getitem "id" selects = Ok sels /\
      forall s1 s2, In s1 sels -> In s2 sels ->
        map column_name (ex.columns s1) = map column_name (ex.columns s2).
Proof.
  assert (H : wf (group_intervals (example_plan Empty_set))).
  { apply NoDup_cons; [simpl; tauto | apply NoDup_nil]. }
  split; [exact H|].
  destruct (get_selects_share_columns (example_plan Empty_set) H)
    as (selects & Hrun & Hall).
  exists selects. split; [exact Hrun|].
  destruct (Hall "id" ["1 month"; "all"] (or_introl eq_refl))
    as (sels & shapes & Hget & _ & _ & Hsame).
  exists sels. split; [exact Hget|].
  intros s1 s2 H1 H2. exact (proj1 (Hsame s1 s2 H1 H2)).
Defined.

Lemma get_creates_union_all_witness :
  wf (group_intervals (three_date_plan Empty_set)) /\
  group_intervals (three_date_plan Empty_set) <> [] /\
  3 <= length (dates (three_date_plan Empty_set)) /\
  exists msg,
    get_creates None (three_date_plan Empty_set)
    = (Raise (AttributeError msg), three_date_plan Empty_set).
Proof.
  assert (H : wf (group_intervals (three_date_plan Empty_set))).
  { apply NoDup_cons; [simpl; tauto | apply NoDup_nil]. }
  assert (Hgi : group_intervals (three_date_plan Empty_set) <> [])
    by (simpl; discriminate).
  assert (Hlen : 3 <= length (dates (three_date_plan Empty_set)))
    by (simpl; lia).
  split; [exact H|]. split; [exact Hgi|]. split; [exact Hlen|].
  exact (proj1 (proj2 (get_creates_union_all (three_date_plan Empty_set) H))
               Hgi Hlen).
Defined.

Lemma group_keys_preserved_witness :
  wf (group_intervals (three_date_plan Empty_set)) /\
  (exists drops, fst (get_drops (three_date_plan Empty_set)) = Ok drops /\
                 keys drops = ["id"]) /\
  (exists msg,
      fst (get_creates None (three_date_plan Empty_set))
      = Raise (AttributeError msg)) /\
  snd (get_creates None (three_date_plan Empty_set))
  = three_date_plan Empty_set.
Proof.
  assert (H : wf (group_intervals (three_date_plan Empty_set))).
  { apply NoDup_cons; [simpl; tauto | apply NoDup_nil]. }
  split; [exact H|].
  destruct (group_keys_preserved (three_date_plan Empty_set) H)
    as (_ & Hdrops & _ & _ & Hraise & _ & _ & Hcreates & _).
  split; [exact Hdrops|]. split; [|exact Hcreates].
  apply Hraise; [simpl; discriminate | simpl; lia].
Defined.

Lemma Aggregate_init_length_mismatch_witness :
  Aggregate_init (PyList ["amount"; "fee"]) (Scalar "sum")
                 (Some (Scalar "amount"))
  = Raise length_mismatch.
Proof.
  apply (proj1 (Aggregate_init_length_mismatch
                  (fun _ : ex.FromClause Empty_set => "")
                  (PyList ["amount"; "fee"]) (Scalar "sum")
                  (Some (Scalar "amount")))).
  exists (Scalar "amount"). split; [reflexivity | simpl; lia].
Defined.

Lemma get_aggregates_sql_window_witness :
  fst (_get_aggregates_sql "1 month" "2016-01-01" "id"
         (example_plan Empty_set))
  = Ok (get_columns example_aggregate
          (Some "'2016-01-01' <= date + interval '1 month'")
          (Some "events_id_1month_")).
Proof.
  rewrite (proj2 (proj2 (get_aggregates_sql_window
                           (example_plan Empty_set)
                           "1 month" "2016-01-01" "id"))).
  - reflexivity.
  - discriminate.
Defined.

Lemma identifiers_rendering_witness :
  wf (group_intervals (quoted_plan Empty_set)) /\
  get_drops (quoted_plan Empty_set)
  = (Ok [("id", "DROP TABLE IF EXISTS " ++ sanitized "myevents_id" ++ ";")],
     quoted_plan Empty_set) /\
  exists relation,
    fst (get_create (fun _ => "") (Some "ids") (quoted_plan Empty_set))
    = Ok ("CREATE TABLE my" ++ String dquote "events_aggregation AS ("
            ++ "SELECT * FROM " ++ relation ++ newline
            ++ "CROSS JOIN (select unnest('{2016-01-01}'::date[]) as date) t2"
            ++ newline
            ++ "LEFT JOIN " ++ sanitized "myevents_id"
            ++ " USING (id, date));").
Proof.
  assert (H : wf (group_intervals (quoted_plan Empty_set))).
  { apply NoDup_cons; [simpl; tauto | apply NoDup_nil]. }
  split; [exact H|].
  destruct (identifiers_rendering (fun _ => "") (quoted_plan Empty_set))
    as (_ & _ & Hgroup & _ & _ & Hcreate).
  destruct (Hgroup H) as (Hdrops & _).
  split; [rewrite Hdrops; reflexivity|].
  destruct (Hcreate (Some "ids")) as (relation & Hrun).
  exists relation. rewrite Hrun. reflexivity.
Defined.

(** ** Inputs on which a claim fails as it is stated *)

(** C7 as stated fails for the final table name and for the index columns:
    they keep their quote characters and get no quotes around them. *)
Lemma final_table_name_counterexample :
  fst (get_drop (example_plan Empty_set))
  = Ok "DROP TABLE IF EXISTS events_aggregation" /\
  fst (get_drop (example_plan Empty_set))
  <> Ok ("DROP TABLE IF EXISTS " ++ sanitized "events_aggregation") /\
  fst (get_drop (quoted_plan Empty_set))
  = Ok ("DROP TABLE IF EXISTS my" ++ String dquote "events_aggregation") /\
  fst (get_create (fun _ => "") (Some "ids") (example_plan Empty_set))
  = Ok ("CREATE TABLE events_aggregation AS (SELECT * FROM ids" ++ newline
          ++ "CROSS JOIN (select unnest('{2016-01-01,2016-02-01}'::date[])"
          ++ " as date) t2" ++ newline
          ++ "LEFT JOIN " ++ sanitized "events_id" ++ " USING (id, date));") /\
  fst (get_create (fun _ => "") (Some "ids") (example_plan Empty_set))
  <> Ok ("CREATE TABLE " ++ sanitized "events_aggregation"
           ++ " AS (SELECT * FROM ids" ++ newline
           ++ "CROSS JOIN (select unnest('{2016-01-01,2016-02-01}'::date[])"
           ++ " as date) t2" ++ newline
           ++ "LEFT JOIN " ++ sanitized "events_id" ++ " USING (id, date));") /\
  fst (get_indexes (example_plan Empty_set))
  = Ok [("id", "CREATE INDEX ON " ++ sanitized "events_id"
                 ++ " (id, date);")] /\
  fst (get_indexes (example_plan Empty_set))
  <> Ok [("id", "CREATE INDEX ON " ++ sanitized "events_id" ++ " ("
                  ++ sanitized "id" ++ ", " ++ sanitized "date" ++ ");")].
Proof.
  split; [reflexivity|]. split; [intros H; discriminate H|].
  split; [reflexivity|]. split; [reflexivity|].
  split; [intros H; discriminate H|]. split; [reflexivity|].
  intros H. discriminate H.
Qed.

(** ** Worked instances of the further properties *)

Lemma interval_names_modulo_spaces_witness :
  exists columns1 columns2,
    _get_aggregates_sql "1 month" "2016-01-01" "id" (example_plan Empty_set)
    = (Ok columns1, example_plan Empty_set) /\
    _get_aggregates_sql "1month" "2016-02-01" "id" (example_plan Empty_set)
    = (Ok columns2, example_plan Empty_set) /\
    map ex.name columns1 = map ex.name columns2.
Proof.
  apply (interval_names_modulo_spaces (example_plan Empty_set)
           "1 month" "1month" "2016-01-01" "2016-02-01" "id").
  reflexivity.
Defined.

Lemma get_selects_column_count_witness :
  wf (group_intervals (example_plan Empty_set)) /\
  exists selects,
    get_selects (example_plan Empty_set)
    = (Ok selects, example_plan Empty_set) /\
    forall sels s, In ("id", sels) selects -> In s sels ->
      length (ex.columns s) = 6.
Proof.
  assert (H : wf (group_intervals (example_plan Empty_set))).
  { apply NoDup_cons; [simpl; tauto | apply NoDup_nil]. }
  split; [exact H|].
  destruct (get_selects_column_count (example_plan Empty_set) H)
    as (selects & Hrun & Hall).
  exists selects. split; [exact Hrun|].
  intros sels s Hin Hs.
  destruct (Hall "id" sels s Hin Hs) as (intervals & Hiv & Hlen).
  destruct Hiv as [Hiv | []]. injection Hiv as <-. exact Hlen.
Defined.

Lemma get_creates_raises_witness :
  wf (group_intervals (undated_plan Empty_set)) /\
  (exists msg,
      fst (get_creates None (undated_plan Empty_set))
      = Raise (TypeError msg)) /\
  wf (group_intervals (three_date_plan Empty_set)) /\
  (exists msg,
      fst (get_creates None (three_date_plan Empty_set))
      = Raise (AttributeError msg)).
Proof.
  assert (H : wf (group_intervals (undated_plan Empty_set))).
  { apply NoDup_cons; [simpl; tauto | apply NoDup_nil]. }
  assert (H3 : wf (group_intervals (three_date_plan Empty_set))).
  { apply NoDup_cons; [simpl; tauto | apply NoDup_nil]. }
  split; [exact H|]. split.
  { apply (proj1 (get_creates_raises (undated_plan Empty_set) H)).
    split; [reflexivity | discriminate]. }
  split; [exact H3|].
  apply (proj1 (proj2 (get_creates_raises (three_date_plan Empty_set) H3))).
  split; [simpl; lia | discriminate].
Defined.



Lemma get_create_override_witness :
  fst (get_create (fun _ => "") (Some "ids") (example_plan Empty_set))
  = Ok ("CREATE TABLE events_aggregation AS (SELECT * FROM ids" ++ newline
          ++ "CROSS JOIN (select unnest('{2016-01-01,2016-02-01}'::date[])"
          ++ " as date) t2" ++ newline
          ++ "LEFT JOIN " ++ sanitized "events_id" ++ " USING (id, date));").
Proof.
  rewrite (proj2 (get_create_override (fun _ => "")
                    (example_plan Empty_set) "ids")).
  - reflexivity.
  - discriminate.
Defined.

Lemma group_statement_lookup_witness :
  wf (group_intervals (example_plan Empty_set)) /\
  exists drops,
    get_drops (example_plan Empty_set) = (Ok drops, example_plan Empty_set) /\
    getitem "id" drops
    = Ok ("DROP TABLE IF EXISTS " ++ sanitized "events_id" ++ ";") /\
    getitem "zip" drops = Raise (KeyError "zip").
Proof.
  assert (H : wf (group_intervals (example_plan Empty_set))).
  { apply NoDup_cons; [simpl; tauto | apply NoDup_nil]. }
  split; [exact H|].
  destruct (group_statement_lookup (example_plan Empty_set) H)
    as (drops & indexes & Hdrops & _ & Hall).
  exists drops. split; [exact Hdrops|].
  destruct (Hall "id") as (Hid & _).
  destruct (Hid (or_introl eq_refl)) as (table & Htable & Hdrop & _).
  injection Htable as <-.
  destruct (Hall "zip") as (_ & Hzip).
  split; [exact Hdrop|].
  apply Hzip. simpl. intuition discriminate.
Defined.
